(** * RTU schedule client: the discovery and caching layer

    A shallow embedding of [src/api-client.ts] (class [RTUApiClient]) and
    [src/schedule/discovery.ts] (class [DiscoveryService]), and the
    properties of their expiring caches, parameter validation, response
    handling and date-range resolution.

    Conventions of the embedding.
    - A JavaScript number that the code uses as an identifier, a year, a
      month or a millisecond count is an integer ([Z]); a parameter that may
      be missing at run time is a [JsNumber] ([None] is [undefined]).
      Fractions, [NaN] and the infinities are outside the model.
    - The methods are asynchronous but each call runs alone (the caches are
      not shared between interleaved calls here); a method is a computation
      in the monad [M], which threads the object's fields, counts the
      readings of the clock and logs every request handed to the transport.
    - The clock, the network and the URL parser of the platform are the
      environment [Env]: the n-th reading of the clock, the reply to the
      n-th request and the set of base URLs that parse are arbitrary.
    - A date carries its local fields and its offset from UTC, and dates
      compare by time value; the time zone of the platform is a parameter
      ([TimeZone]), so what is proved holds in every time zone.
    - The transport (axios), the HTML parser and the label functions of
      [utils.ts] are collaborators of the two classes: the first is part of
      the environment, the other two are parameters. *)

From Stdlib Require Import ZArith String Ascii List Bool Lia.
From stdpp Require Import base option gmap strings pretty.

#[local] Set Warnings "-register-all".
Open Scope string_scope.
Open Scope Z_scope.

(** ** JavaScript values, errors and dates *)

(** A response body ([response.data]) or any other untyped value. *)
Inductive JsValue : Type :=
| JUndefined
| JNull
| JBool (b : bool)
| JNum (n : Z)
| JStr (s : string)
| JArr (items : list JsValue)
| JObj (fields : list (string * JsValue)).

(** [Boolean(v)], the truthiness used by [if (v)]. *)
Definition Boolean (v : JsValue) : bool :=
  match v with
  | JUndefined | JNull => false
  | JBool b => b
  | JNum n => negb (n =? 0)
  | JStr s => negb (String.eqb s "")
  | JArr _ | JObj _ => true
  end.

(** [v == null]: true of [null] and [undefined] only. *)
Definition eq_null (v : JsValue) : bool :=
  match v with
  | JUndefined | JNull => true
  | _ => false
  end.

(** [v !== undefined] *)
Definition not_undefined (v : JsValue) : bool :=
  match v with
  | JUndefined => false
  | _ => true
  end.

Definition Array_isArray (v : JsValue) : bool :=
  match v with
  | JArr _ => true
  | _ => false
  end.

(** Thrown values. [Error m] is [new Error(m)]; [AxiosError m] is what the
    transport rejects with ([axios.isAxiosError]); [DiscoveryError m c] is
    [new DiscoveryError(m, c)]; [NonError v] is a thrown value that is not
    an instance of [Error]; [TypeError m] is the error of the platform
    that [new URL] throws. *)
Inductive JsError : Type :=
| Error (message : string)
| AxiosError (message : string)
| DiscoveryError (message : string) (cause : option JsError)
| NonError (v : JsValue)
| TypeError (message : string).

Definition isAxiosError (e : JsError) : bool :=
  match e with
  | AxiosError _ => true
  | _ => false
  end.

Definition instanceof_Error (e : JsError) : bool :=
  match e with
  | NonError _ => false
  | _ => true
  end.

Definition error_message (e : JsError) : string :=
  match e with
  | Error m | AxiosError m | DiscoveryError m _ | TypeError m => m
  | NonError _ => "undefined"
  end.

(** A number that may be missing. *)
Definition JsNumber : Type := option Z.

(** [!x]: a number is falsy when it is missing or zero. *)
Definition falsy (x : JsNumber) : bool :=
  match x with
  | None => true
  | Some n => n =? 0
  end.

(** [x <= k], [x < k] and [x > k]; a comparison with a missing value is
    false. *)
Definition num_le (x : JsNumber) (k : Z) : bool :=
  match x with Some n => n <=? k | None => false end.
Definition num_lt (x : JsNumber) (k : Z) : bool :=
  match x with Some n => n <? k | None => false end.
Definition num_gt (x : JsNumber) (k : Z) : bool :=
  match x with Some n => k <? n | None => false end.

(** [`${x}`] and [x.toString()] of an integer: its decimal numeral. The
    code converts a parameter only after it has been validated, so the
    numeral of a missing value is never produced by a call that goes on. *)
Definition toString (x : JsNumber) : string :=
  match x with
  | Some n => pretty n
  | None => "undefined"
  end.

(** A [Date], by its fields in local time and the offset of local time
    in force at it: [getFullYear()], [getMonth()] (0 is January),
    [getDate()], the milliseconds since local midnight, and
    [getTimezoneOffset()] (the minutes to add to local time to get UTC).
    Together they determine the time value of the date, by which dates
    compare. *)
Record Date : Type := mkDate {
  fullYear : Z;
  monthIndex : Z;
  dayOfMonth : Z;
  msOfDay : Z;
  timezoneOffset : Z
}.

(** The day arithmetic of the language: [InLeapYear], [DayFromYear], and
    [MakeDay] for a month index from 0 to 11 (the number of the day,
    counted from 1 January 1970). *)
Definition InLeapYear (y : Z) : bool :=
  ((y mod 4 =? 0) && negb (y mod 100 =? 0)) || (y mod 400 =? 0).

Definition DayFromYear (y : Z) : Z :=
  365 * (y - 1970) + (y - 1969) / 4 - (y - 1901) / 100 + (y - 1601) / 400.

Definition DaysBeforeMonth (leap : bool) (m : Z) : Z :=
  match m with
  | 0 => 0
  | 1 => 31
  | _ =>
      (match m with
       | 2 => 59 | 3 => 90 | 4 => 120 | 5 => 151 | 6 => 181 | 7 => 212
       | 8 => 243 | 9 => 273 | 10 => 304 | _ => 334
       end) + (if leap then 1 else 0)
  end.

Definition MakeDay (y m d : Z) : Z :=
  DayFromYear y + DaysBeforeMonth (InLeapYear y) m + d - 1.

Definition msPerDay : Z := 86400000.
Definition msPerMinute : Z := 60000.

(** [d.getTime()]: the milliseconds from the epoch to the date. *)
Definition timeValue (d : Date) : Z :=
  MakeDay (fullYear d) (monthIndex d) (dayOfMonth d) * msPerDay + msOfDay d
  + timezoneOffset d * msPerMinute.

(** The time zone of the platform, as far as the code depends on it: the
    offset in force at local midnight of a calendar day. The language
    keeps every offset below one day in size. *)
Class TimeZone : Type := {
  timezoneOffsetAt : Z -> Z -> Z -> Z;
  timezoneOffsetAt_bounded :
    forall y m d, -1440 < timezoneOffsetAt y m d < 1440
}.

(** [new Date(y, m, d)] for a month index and a day that exist in the
    calendar (the only ones the code passes): local midnight of that day.
    As the language defines the constructor, a year from 0 to 99 stands
    for 1900 + year. *)
Definition new_Date_ymd {zone : TimeZone} (y m d : Z) : Date :=
  let year := if (0 <=? y) && (y <=? 99) then 1900 + y else y in
  {| fullYear := year;
     monthIndex := m;
     dayOfMonth := d;
     msOfDay := 0;
     timezoneOffset := timezoneOffsetAt year m d |}.

Definition getFullYear (d : Date) : Z := fullYear d.

(** [a <= b] on dates: the order of their time values. *)
Definition Date_leb (a b : Date) : bool :=
  timeValue a <=? timeValue b.

(** ** The environment and the monad of method bodies *)

(** One reading of the clock: [Date.now()] gives [epoch], [new Date()]
    gives [local], a date with that time value (see [clock_consistent]). *)
Record Instant : Type := mkInstant {
  epoch : Z;
  local : Date
}.

(** A request handed to the transport: a form-encoded POST of the live
    data client, or the GET of the main page by the discovery service
    (with the optional [semester] query parameter). *)
Inductive Request : Type :=
| POST (path : string) (form : list (string * string))
| GET (semester : option Z).

Inductive Reply : Type :=
| Response (data : JsValue)
| Rejects (e : JsError).

(** The environment of a run: the clock, the network, and which strings
    the platform's URL parser accepts as a base URL. At every reading the
    two views of the clock show the same instant. *)
Record Env : Type := mkEnv {
  clock : nat -> Instant;
  network : nat -> Request -> Reply;
  url_parses : string -> bool;
  clock_consistent : forall n, epoch (clock n) = timeValue (local (clock n))
}.

(** The state a method runs in: the fields of [this], how often the clock
    has been read, and the requests sent so far. *)
Record State (O : Type) : Type := mkState {
  self : O;
  reads : nat;
  sent : list Request
}.
Arguments mkState {O} _ _ _.
Arguments self {O} _.
Arguments reads {O} _.
Arguments sent {O} _.

Inductive Completion (A : Type) : Type :=
| Normal (a : A)
| Throw (e : JsError).
Arguments Normal {A} _.
Arguments Throw {A} _.

Definition M (O A : Type) : Type := Env -> State O -> Completion A * State O.

Definition run {O A} (m : M O A) (E : Env) (s : State O) : Completion A * State O :=
  m E s.

#[global] Instance M_ret {O} : MRet (M O) :=
  fun A a _ s => (Normal a, s).

#[global] Instance M_bind {O} : MBind (M O) :=
  fun A B f m E s =>
    match m E s with
    | (Normal a, s') => f a E s'
    | (Throw e, s') => (Throw e, s')
    end.

Definition throw {O A} (e : JsError) : M O A :=
  fun _ s => (Throw e, s).

(** [try { m } catch (error) { h error }] *)
Definition try_catch {O A} (m : M O A) (h : JsError -> M O A) : M O A :=
  fun E s =>
    match m E s with
    | (Normal a, s') => (Normal a, s')
    | (Throw e, s') => h e E s'
    end.

Definition this {O} : M O O :=
  fun _ s => (Normal (self s), s).

Definition assign {O} (o : O) : M O unit :=
  fun _ s => (Normal tt, mkState o (reads s) (sent s)).

Definition tick {O} (s : State O) : State O :=
  mkState (self s) (S (reads s)) (sent s).

(** [Date.now()] *)
Definition Date_now {O} : M O Z :=
  fun E s => (Normal (epoch (clock E (reads s))), tick s).

(** [new Date()] *)
Definition new_Date {O} : M O Date :=
  fun E s => (Normal (local (clock E (reads s))), tick s).

(** [new URL('/', base)]: throws a [TypeError] when [base] does not parse
    as an absolute URL. Only whether it throws matters to what follows. *)
Definition new_URL {O} (base : string) : M O unit :=
  fun E s =>
    if url_parses E base then (Normal tt, s)
    else (Throw (TypeError "Invalid URL"), s).

(** [await] of a request: it is logged, and the environment's reply to it
    is either the response body or a rejection. *)
Definition await_request {O} (r : Request) : M O JsValue :=
  fun E s =>
    let s' := mkState (self s) (reads s) (sent s ++ [r]) in
    match network E (length (sent s)) r with
    | Response d => (Normal d, s')
    | Rejects e => (Throw e, s')
    end.

(** ** [RTUApiClient] (src/api-client.ts) *)

Record CacheEntry (T : Type) : Type := mkEntry {
  data : T;
  timestamp : Z
}.
Arguments mkEntry {T} _ _.
Arguments data {T} _.
Arguments timestamp {T} _.

Record RTUApiClient : Type := mkClient {
  cache : gmap string (CacheEntry JsValue);
  cacheTimeout : Z
}.

(** [new RTUApiClient(config)]: [config.cacheTimeout ?? 5 * 60 * 1000]. *)
Definition RTUApiClient_new (configCacheTimeout : option Z) : RTUApiClient :=
  {| cache := ∅;
     cacheTimeout := default (5 * 60 * 1000) configCacheTimeout |}.

Definition set_cache (c : gmap string (CacheEntry JsValue)) (o : RTUApiClient)
  : RTUApiClient :=
  {| cache := c; cacheTimeout := cacheTimeout o |}.

(** [getFromCache]: [undefined] stands for a miss. The clock is read only
    when the key has an entry. *)
Definition getFromCache (key : string) : M RTUApiClient JsValue :=
  o ← this;
  match cache o !! key with
  | Some cached =>
      now ← Date_now;
      if now - timestamp cached <? cacheTimeout o
      then mret (data cached)
      else
        assign (set_cache (delete key (cache o)) o);;
        mret JUndefined
  | None => mret JUndefined
  end.

Definition setCache (key : string) (d : JsValue) : M RTUApiClient unit :=
  now ← Date_now;
  o ← this;
  assign (set_cache (<[key := mkEntry d now]> (cache o)) o).

(** The parameter objects ([src/types.ts] declares them; every field is a
    number). *)
Module SemesterProgramEventsParams.
Record t : Type := make {
  semesterProgramId : JsNumber;
  year : JsNumber;
  month : JsNumber
}.
End SemesterProgramEventsParams.

Module GroupsByCourseParams.
Record t : Type := make {
  courseId : JsNumber;
  semesterId : JsNumber;
  programId : JsNumber
}.
End GroupsByCourseParams.

Module CoursesByProgramParams.
Record t : Type := make {
  semesterId : JsNumber;
  programId : JsNumber
}.
End CoursesByProgramParams.

Definition validateSemesterProgramEventsParams
    (params : SemesterProgramEventsParams.t) : M RTUApiClient unit :=
  let p := params in
  (if falsy (SemesterProgramEventsParams.semesterProgramId p)
      || num_le (SemesterProgramEventsParams.semesterProgramId p) 0
   then throw (Error "Invalid semesterProgramId") else mret tt);;
  (if falsy (SemesterProgramEventsParams.year p)
      || num_lt (SemesterProgramEventsParams.year p) 2000
      || num_gt (SemesterProgramEventsParams.year p) 3000
   then throw (Error "Invalid year") else mret tt);;
  (if falsy (SemesterProgramEventsParams.month p)
      || num_lt (SemesterProgramEventsParams.month p) 1
      || num_gt (SemesterProgramEventsParams.month p) 12
   then throw (Error "Invalid month") else mret tt).

Definition validateGroupsByCourseParams
    (params : GroupsByCourseParams.t) : M RTUApiClient unit :=
  let p := params in
  (if falsy (GroupsByCourseParams.courseId p)
      || num_le (GroupsByCourseParams.courseId p) 0
   then throw (Error "Invalid courseId") else mret tt);;
  (if falsy (GroupsByCourseParams.semesterId p)
      || num_le (GroupsByCourseParams.semesterId p) 0
   then throw (Error "Invalid semesterId") else mret tt);;
  (if falsy (GroupsByCourseParams.programId p)
      || num_le (GroupsByCourseParams.programId p) 0
   then throw (Error "Invalid programId") else mret tt).

Definition validateCoursesByProgramParams
    (params : CoursesByProgramParams.t) : M RTUApiClient unit :=
  let p := params in
  (if falsy (CoursesByProgramParams.semesterId p)
      || num_le (CoursesByProgramParams.semesterId p) 0
   then throw (Error "Invalid semesterId") else mret tt);;
  (if falsy (CoursesByProgramParams.programId p)
      || num_le (CoursesByProgramParams.programId p) 0
   then throw (Error "Invalid programId") else mret tt).

(** The [catch] block shared by the five operations. *)
Definition rethrow_api {A} (error : JsError) : M RTUApiClient A :=
  if isAxiosError error
  then throw (Error ("API request failed: " +:+ error_message error))
  else throw error.

(** The body shared by the four list-returning operations after the cache
    key is known: cache look-up, request, null check, coercion, cache
    write. Each operation below is this text with its own key, path and
    form, as in the source. *)
Definition fetch_list (cacheKey : string) (path : string)
    (form : list (string * string)) : M RTUApiClient JsValue :=
  cached ← getFromCache cacheKey;
  if Boolean cached then mret cached
  else
    try_catch
      (response_data ← await_request (POST path form);
       if eq_null response_data then throw (Error "Invalid response data")
       else
         let items :=
           if Array_isArray response_data then response_data else JArr [] in
         setCache cacheKey items;;
         mret items)
      rethrow_api.

Definition events_key (params : SemesterProgramEventsParams.t) : string :=
  "events_" +:+ toString (SemesterProgramEventsParams.semesterProgramId params)
  +:+ "_" +:+ toString (SemesterProgramEventsParams.year params)
  +:+ "_" +:+ toString (SemesterProgramEventsParams.month params).

Definition fetchSemesterProgramEvents
    (params : SemesterProgramEventsParams.t) : M RTUApiClient JsValue :=
  validateSemesterProgramEventsParams params;;
  let cacheKey := events_key params in
  fetch_list cacheKey "/getSemesterProgEventList"
    [("semesterProgramId",
      toString (SemesterProgramEventsParams.semesterProgramId params));
     ("year", toString (SemesterProgramEventsParams.year params));
     ("month", toString (SemesterProgramEventsParams.month params))].

Definition subjects_key (semesterProgramId : JsNumber) : string :=
  "subjects_" +:+ toString semesterProgramId.

Definition fetchSemesterProgramSubjects
    (semesterProgramId : JsNumber) : M RTUApiClient JsValue :=
  (if falsy semesterProgramId || num_le semesterProgramId 0
   then throw (Error "Invalid semesterProgramId") else mret tt);;
  let cacheKey := subjects_key semesterProgramId in
  fetch_list cacheKey "/getSemProgSubjects"
    [("semesterProgramId", toString semesterProgramId)].

Definition published_key (semesterProgramId : JsNumber) : string :=
  "published_" +:+ toString semesterProgramId.

(** The body of the publication check after the cache key is known. A hit
    is any cached value other than [undefined], so a cached [false] counts;
    a null body is read as [false]. *)
Definition fetch_flag (cacheKey : string) (path : string)
    (form : list (string * string)) : M RTUApiClient JsValue :=
  cached ← getFromCache cacheKey;
  if not_undefined cached then mret cached
  else
    try_catch
      (response_data ← await_request (POST path form);
       let published :=
         JBool (if negb (eq_null response_data)
                then Boolean response_data else false) in
       setCache cacheKey published;;
       mret published)
      rethrow_api.

Definition checkSemesterProgramPublished
    (semesterProgramId : JsNumber) : M RTUApiClient JsValue :=
  (if falsy semesterProgramId || num_le semesterProgramId 0
   then throw (Error "Invalid semesterProgramId") else mret tt);;
  let cacheKey := published_key semesterProgramId in
  fetch_flag cacheKey "/isSemesterProgramPublished"
    [("semesterProgramId", toString semesterProgramId)].

Definition groups_key (params : GroupsByCourseParams.t) : string :=
  "groups_" +:+ toString (GroupsByCourseParams.courseId params)
  +:+ "_" +:+ toString (GroupsByCourseParams.semesterId params)
  +:+ "_" +:+ toString (GroupsByCourseParams.programId params).

Definition findGroupsByCourse
    (params : GroupsByCourseParams.t) : M RTUApiClient JsValue :=
  validateGroupsByCourseParams params;;
  let cacheKey := groups_key params in
  fetch_list cacheKey "/findGroupByCourseId"
    [("courseId", toString (GroupsByCourseParams.courseId params));
     ("semesterId", toString (GroupsByCourseParams.semesterId params));
     ("programId", toString (GroupsByCourseParams.programId params))].

Definition courses_key (params : CoursesByProgramParams.t) : string :=
  "courses_" +:+ toString (CoursesByProgramParams.semesterId params)
  +:+ "_" +:+ toString (CoursesByProgramParams.programId params).

Definition findCoursesByProgram
    (params : CoursesByProgramParams.t) : M RTUApiClient JsValue :=
  validateCoursesByProgramParams params;;
  let cacheKey := courses_key params in
  fetch_list cacheKey "/findCourseByProgramId"
    [("semesterId", toString (CoursesByProgramParams.semesterId params));
     ("programId", toString (CoursesByProgramParams.programId params))].

(** [clearCache] *)
Definition clearCache : M RTUApiClient unit :=
  o ← this;
  assign (set_cache ∅ o).

(** [clearExpiredCache]: the clock is read once, then the loop over the
    entries deletes from the map each entry older than the time-to-live.
    The loop is a fold over the entries that were there when it started,
    with the map under deletion as its accumulator. *)
Definition clearExpiredCache : M RTUApiClient unit :=
  now ← Date_now;
  o ← this;
  assign (set_cache
            (map_fold
               (fun key value remaining =>
                  if cacheTimeout o <? now - timestamp value
                  then delete key remaining
                  else remaining)
               (cache o) (cache o))
            o).

(** ** [DiscoveryService] (src/schedule/discovery.ts) *)

(** The label functions of [src/schedule/utils.ts], which the service
    imports: their text is not part of the sources at hand, so the service
    is defined over any four functions of their types. The season is the
    string that [parseSeason] returns; the service compares it with
    ['autumn'], ['spring'] and ['summer']. *)
Class LabelNormalizer : Type := {
  parsePeriodCode : string -> string;
  parseAcademicYear : string -> string;
  parseSeason : string -> string;
  parseProgramName : string -> string
}.

Module Discovery.

(** The raw records of [src/types.ts], as the service reads them. *)
Record Semester : Type := mkSemester {
  semester_id : Z;
  semester_name : string;
  semester_isSelected : bool
}.

(** The dates of the selected semester; either may be absent. A date
    that is present is a [Date], and [new Date(d)] of it is a date with the
    same time value, that is, [d] again. *)
Record SemesterMetadata : Type := mkMetadata {
  metadata_startDate : option Date;
  metadata_endDate : option Date
}.

Record Program : Type := mkProgram {
  program_id : Z;
  program_name : string;
  program_code : string;
  program_tokens : list string
}.

Record Faculty : Type := mkFaculty {
  facultyName : string;
  facultyCode : string;
  programs : list Program
}.

Record StudyPeriod : Type := mkStudyPeriod {
  id : Z;
  name : string;
  code : string;
  academicYear : string;
  season : string;
  startDate : Date;
  endDate : Date;
  isSelected : bool
}.

Record StudyProgram : Type := mkStudyProgram {
  sp_id : Z;
  sp_name : string;
  sp_code : string;
  sp_fullName : string;
  sp_faculty : string * string;
  sp_tokens : list string
}.

(** The injected [RTUHtmlParser] ([src/html-parser.ts]): three functions
    of the fetched page, each of which may throw. *)
Record RTUHtmlParser : Type := mkParser {
  parseHtmlSemesters : JsValue -> Completion (list Semester);
  parseHtmlSemesterMetadata : JsValue -> Completion SemesterMetadata;
  parseHtmlPrograms : JsValue -> Completion (list Faculty)
}.

Record DiscoveryService : Type := mkService {
  htmlParser : RTUHtmlParser;
  baseUrl : string;
  cacheTimeout : Z;
  periodsCache : option (CacheEntry (list StudyPeriod));
  programsCache : gmap Z (CacheEntry (list StudyProgram))
}.

Definition DEFAULT_BASE_URL : string := "https://nodarbibas.rtu.lv".
Definition DEFAULT_CACHE_TIMEOUT : Z := 60 * 60 * 1000.

(** [new DiscoveryService(htmlParser, options)] *)
Definition DiscoveryService_new (parser : RTUHtmlParser)
    (optionsBaseUrl : option string) (optionsCacheTimeout : option Z)
  : DiscoveryService :=
  {| htmlParser := parser;
     baseUrl := default DEFAULT_BASE_URL optionsBaseUrl;
     cacheTimeout := default DEFAULT_CACHE_TIMEOUT optionsCacheTimeout;
     periodsCache := None;
     programsCache := ∅ |}.

Definition set_periodsCache (c : option (CacheEntry (list StudyPeriod)))
    (o : DiscoveryService) : DiscoveryService :=
  {| htmlParser := htmlParser o; baseUrl := baseUrl o;
     cacheTimeout := cacheTimeout o;
     periodsCache := c; programsCache := programsCache o |}.

Definition set_programsCache (c : gmap Z (CacheEntry (list StudyProgram)))
    (o : DiscoveryService) : DiscoveryService :=
  {| htmlParser := htmlParser o; baseUrl := baseUrl o;
     cacheTimeout := cacheTimeout o;
     periodsCache := periodsCache o; programsCache := c |}.

(** The result of a call that may throw, inside a method body. *)
Definition lift {O A} (c : Completion A) : M O A :=
  fun _ s => (c, s).

(** [xs.map(f)] for a callback that reads the clock. *)
Fixpoint mapM {O A B} (f : A -> M O B) (xs : list A) : M O (list B) :=
  match xs with
  | [] => mret []
  | x :: rest =>
      y ← f x;
      ys ← mapM f rest;
      mret (y :: ys)
  end.

Definition is_digit (c : ascii) : bool :=
  (48 <=? nat_of_ascii c)%nat && (nat_of_ascii c <=? 57)%nat.

(** [s.match(/^(\d{4})\/(\d{4})$/)]: the two captured groups. *)
Definition yearMatch (s : string) : option (string * string) :=
  match s with
  | String a (String b (String c (String d (String sep
      (String e (String f (String g (String h EmptyString)))))))) =>
      if is_digit a && is_digit b && is_digit c && is_digit d
         && Ascii.eqb sep "/"
         && is_digit e && is_digit f && is_digit g && is_digit h
      then Some (String a (String b (String c (String d EmptyString))),
                 String e (String f (String g (String h EmptyString))))
      else None
  | _ => None
  end.

(** [parseInt(s, 10)] of a string of decimal digits. *)
Definition parseInt (s : string) : Z :=
  fold_left (fun acc c => 10 * acc + (Z.of_nat (nat_of_ascii c) - 48))
    (list_ascii_of_string s) 0.

Section Service.
Context {normalizer : LabelNormalizer} {zone : TimeZone}.

(** The [else] branch of [transformToStudyPeriod] (lines 155 to 181):
    the default range of a season in an academic year. The clock is
    read for the year only when the string does not match, and once
    for each date of an unrecognised season. *)
Definition defaultDates (academicYear season : string)
  : M DiscoveryService (Date * Date) :=
  let yearMatch := yearMatch academicYear in
  startYear ← match yearMatch with
              | Some (y1, _) => mret (parseInt y1)
              | None => now ← new_Date; mret (getFullYear now)
              end;
  let endYear := match yearMatch with
                 | Some (_, y2) => parseInt y2
                 | None => startYear + 1
                 end in
  if String.eqb season "autumn" then
    mret (new_Date_ymd startYear 8 1, new_Date_ymd endYear 0 31)
  else if String.eqb season "spring" then
    mret (new_Date_ymd endYear 1 1, new_Date_ymd endYear 5 30)
  else if String.eqb season "summer" then
    mret (new_Date_ymd endYear 6 1, new_Date_ymd endYear 7 31)
  else
    startDate ← new_Date;
    endDate ← new_Date;
    mret (startDate, endDate).

Definition transformToStudyPeriod (semester : Semester)
    (metadata : SemesterMetadata) : M DiscoveryService StudyPeriod :=
  let code := parsePeriodCode (semester_name semester) in
  let academicYear := parseAcademicYear (semester_name semester) in
  let season := parseSeason (semester_name semester) in
  dates ← match semester_isSelected semester,
                metadata_startDate metadata,
                metadata_endDate metadata with
          | true, Some startDate, Some endDate =>
              (* new Date(d) of a date d is a date of the same time *)
              mret (startDate, endDate)
          | _, _, _ => defaultDates academicYear season
          end;
  mret {| id := semester_id semester;
          name := semester_name semester;
          code := code;
          academicYear := academicYear;
          season := season;
          startDate := fst dates;
          endDate := snd dates;
          isSelected := semester_isSelected semester |}.

Definition transformFacultiesToPrograms (faculties : list Faculty)
  : list StudyProgram :=
  flat_map
    (fun faculty =>
       map (fun program =>
              {| sp_id := program_id program;
                 sp_name := parseProgramName (program_name program);
                 sp_code := program_code program;
                 sp_fullName := program_name program;
                 sp_faculty := (facultyName faculty, facultyCode faculty);
                 sp_tokens := program_tokens program |})
           (programs faculty))
    faculties.

(** [fetchMainPage]: the URL is built from the base URL, before the
    [try] block, with [lang=lv] and, when given, [semester=<id>]; the
    request is identified by that id. The headers and the time-out of the
    request are constants of the method. *)
Definition fetchMainPage (semesterId : option Z)
  : M DiscoveryService JsValue :=
  o ← this;
  new_URL (baseUrl o);;
  try_catch
    (await_request (GET semesterId))
    (fun error =>
       if isAxiosError error
       then throw (DiscoveryError
                     ("HTTP request failed: " +:+ error_message error) None)
       else throw error).

Definition getCachedPeriods : M DiscoveryService (option (list StudyPeriod)) :=
  o ← this;
  match periodsCache o with
  | None => mret None
  | Some entry =>
      now ← Date_now;
      if cacheTimeout o <? now - timestamp entry then
        assign (set_periodsCache None o);;
        mret None
      else mret (Some (data entry))
  end.

Definition getCachedPrograms (periodId : Z)
  : M DiscoveryService (option (list StudyProgram)) :=
  o ← this;
  match programsCache o !! periodId with
  | None => mret None
  | Some cached =>
      now ← Date_now;
      if cacheTimeout o <? now - timestamp cached then
        assign (set_programsCache (delete periodId (programsCache o)) o);;
        mret None
      else mret (Some (data cached))
  end.

(** The [catch] blocks of the two discovery methods. *)
Definition wrap {A} (message : string) (error : JsError)
  : M DiscoveryService A :=
  throw (DiscoveryError message
           (if instanceof_Error error then Some error else None)).

(** The [try] block of [discoverPeriods]. *)
Definition fetch_periods : M DiscoveryService (list StudyPeriod) :=
  html ← fetchMainPage None;
  o ← this;
  semesters ← lift (parseHtmlSemesters (htmlParser o) html);
  metadata ← lift (parseHtmlSemesterMetadata (htmlParser o) html);
  periods ← mapM (fun s => transformToStudyPeriod s metadata) semesters;
  now ← Date_now;
  o ← this;
  assign (set_periodsCache (Some (mkEntry periods now)) o);;
  mret periods.

Definition discoverPeriods : M DiscoveryService (list StudyPeriod) :=
  cached ← getCachedPeriods;
  match cached with
  | Some periods => mret periods
  | None => try_catch fetch_periods (wrap "Failed to fetch periods")
  end.

(** The [try] block of [discoverPrograms]. *)
Definition fetch_programs (periodId : Z)
  : M DiscoveryService (list StudyProgram) :=
  html ← fetchMainPage (Some periodId);
  o ← this;
  faculties ← lift (parseHtmlPrograms (htmlParser o) html);
  let programs := transformFacultiesToPrograms faculties in
  now ← Date_now;
  o ← this;
  assign (set_programsCache
            (<[periodId := mkEntry programs now]> (programsCache o)) o);;
  mret programs.

Definition discoverPrograms (periodId : Z)
  : M DiscoveryService (list StudyProgram) :=
  cached ← getCachedPrograms periodId;
  match cached with
  | Some programs => mret programs
  | None =>
      try_catch (fetch_programs periodId) (wrap "Failed to fetch programs")
  end.

(** [periods.find(p => p.isSelected) ?? periods[0] ?? null] *)
Definition discoverCurrentPeriod : M DiscoveryService (option StudyPeriod) :=
  periods ← discoverPeriods;
  mret (match List.find isSelected periods with
        | Some p => Some p
        | None => head periods
        end).

Definition clearCache : M DiscoveryService unit :=
  o ← this;
  assign (set_programsCache ∅ (set_periodsCache None o)).

End Service.

End Discovery.

(** ** Vocabulary of the properties *)

(** The five public operations of the live data client, with their
    arguments. *)
Inductive Operation : Type :=
| FetchSemesterProgramEvents (params : SemesterProgramEventsParams.t)
| FetchSemesterProgramSubjects (semesterProgramId : JsNumber)
| CheckSemesterProgramPublished (semesterProgramId : JsNumber)
| FindGroupsByCourse (params : GroupsByCourseParams.t)
| FindCoursesByProgram (params : CoursesByProgramParams.t).

Definition call (op : Operation) : M RTUApiClient JsValue :=
  match op with
  | FetchSemesterProgramEvents params => fetchSemesterProgramEvents params
  | FetchSemesterProgramSubjects i => fetchSemesterProgramSubjects i
  | CheckSemesterProgramPublished i => checkSemesterProgramPublished i
  | FindGroupsByCourse params => findGroupsByCourse params
  | FindCoursesByProgram params => findCoursesByProgram params
  end.

Definition key_of (op : Operation) : string :=
  match op with
  | FetchSemesterProgramEvents params => events_key params
  | FetchSemesterProgramSubjects i => subjects_key i
  | CheckSemesterProgramPublished i => published_key i
  | FindGroupsByCourse params => groups_key params
  | FindCoursesByProgram params => courses_key params
  end.

(** The endpoint and the form an operation posts on a miss. *)
Definition path_of (op : Operation) : string :=
  match op with
  | FetchSemesterProgramEvents _ => "/getSemesterProgEventList"
  | FetchSemesterProgramSubjects _ => "/getSemProgSubjects"
  | CheckSemesterProgramPublished _ => "/isSemesterProgramPublished"
  | FindGroupsByCourse _ => "/findGroupByCourseId"
  | FindCoursesByProgram _ => "/findCourseByProgramId"
  end.

Definition form_of (op : Operation) : list (string * string) :=
  match op with
  | FetchSemesterProgramEvents params =>
      [("semesterProgramId",
        toString (SemesterProgramEventsParams.semesterProgramId params));
       ("year", toString (SemesterProgramEventsParams.year params));
       ("month", toString (SemesterProgramEventsParams.month params))]
  | FetchSemesterProgramSubjects i => [("semesterProgramId", toString i)]
  | CheckSemesterProgramPublished i => [("semesterProgramId", toString i)]
  | FindGroupsByCourse params =>
      [("courseId", toString (GroupsByCourseParams.courseId params));
       ("semesterId", toString (GroupsByCourseParams.semesterId params));
       ("programId", toString (GroupsByCourseParams.programId params))]
  | FindCoursesByProgram params =>
      [("semesterId", toString (CoursesByProgramParams.semesterId params));
       ("programId", toString (CoursesByProgramParams.programId params))]
  end.

Definition request_of (op : Operation) : Request :=
  POST (path_of op) (form_of op).

(** The operations whose result is a list. *)
Definition returns_list (op : Operation) : bool :=
  match op with
  | CheckSemesterProgramPublished _ => false
  | _ => true
  end.

(** What an operation does once its parameters are validated. *)
Definition after_validation (op : Operation) : M RTUApiClient JsValue :=
  if returns_list op
  then fetch_list (key_of op) (path_of op) (form_of op)
  else fetch_flag (key_of op) (path_of op) (form_of op).

(** The test an operation applies to the value its look-up returned. *)
Definition hit_test (op : Operation) (cached : JsValue) : bool :=
  if returns_list op then Boolean cached else not_undefined cached.

(** The state after the request [r] has been handed to the transport. *)
Definition log_request (r : Request) (s : State RTUApiClient) : State RTUApiClient :=
  mkState (self s) (reads s) (sent s ++ [r]).

(** What an operation makes of a response body. *)
Definition decode (op : Operation) (d : JsValue) : Completion JsValue :=
  if returns_list op then
    if eq_null d then Throw (Error "Invalid response data")
    else Normal (if Array_isArray d then d else JArr [])
  else Normal (JBool (if negb (eq_null d) then Boolean d else false)).

(** What the [catch] block makes of a rejection. *)
Definition translate (e : JsError) : JsError :=
  if isAxiosError e then Error ("API request failed: " +:+ error_message e)
  else e.

(** Two calls of one operation with the same values for every parameter. *)
Definition same_parameters (a b : Operation) : Prop :=
  match a, b with
  | FetchSemesterProgramEvents p, FetchSemesterProgramEvents q =>
      SemesterProgramEventsParams.semesterProgramId p
        = SemesterProgramEventsParams.semesterProgramId q
      /\ SemesterProgramEventsParams.year p = SemesterProgramEventsParams.year q
      /\ SemesterProgramEventsParams.month p = SemesterProgramEventsParams.month q
  | FetchSemesterProgramSubjects i, FetchSemesterProgramSubjects j => i = j
  | CheckSemesterProgramPublished i, CheckSemesterProgramPublished j => i = j
  | FindGroupsByCourse p, FindGroupsByCourse q =>
      GroupsByCourseParams.courseId p = GroupsByCourseParams.courseId q
      /\ GroupsByCourseParams.semesterId p = GroupsByCourseParams.semesterId q
      /\ GroupsByCourseParams.programId p = GroupsByCourseParams.programId q
  | FindCoursesByProgram p, FindCoursesByProgram q =>
      CoursesByProgramParams.semesterId p = CoursesByProgramParams.semesterId q
      /\ CoursesByProgramParams.programId p = CoursesByProgramParams.programId q
  | _, _ => False
  end.

(** A parameter is acceptable when it is present and positive; a year
    when it is present and from 2000 to 3000, a month from 1 to 12. *)
Definition present_positive (x : JsNumber) : bool :=
  match x with
  | Some n => 0 <? n
  | None => false
  end.

Definition present_within (lo hi : Z) (x : JsNumber) : bool :=
  match x with
  | Some n => (lo <=? n) && (n <=? hi)
  | None => false
  end.

(** The parameters of an operation in the order of its parameter list,
    each with its name and whether it is acceptable. *)
Definition parameters (op : Operation) : list (string * bool) :=
  match op with
  | FetchSemesterProgramEvents p =>
      [("semesterProgramId",
        present_positive (SemesterProgramEventsParams.semesterProgramId p));
       ("year", present_within 2000 3000 (SemesterProgramEventsParams.year p));
       ("month", present_within 1 12 (SemesterProgramEventsParams.month p))]
  | FetchSemesterProgramSubjects i => [("semesterProgramId", present_positive i)]
  | CheckSemesterProgramPublished i => [("semesterProgramId", present_positive i)]
  | FindGroupsByCourse p =>
      [("courseId", present_positive (GroupsByCourseParams.courseId p));
       ("semesterId", present_positive (GroupsByCourseParams.semesterId p));
       ("programId", present_positive (GroupsByCourseParams.programId p))]
  | FindCoursesByProgram p =>
      [("semesterId", present_positive (CoursesByProgramParams.semesterId p));
       ("programId", present_positive (CoursesByProgramParams.programId p))]
  end.

(** The name of the first parameter that is not acceptable, if any. *)
Definition first_rejected (op : Operation) : option string :=
  fst <$> List.find (fun c => negb (snd c)) (parameters op).

(** An entry of the live data cache is fresh at the next reading of the
    clock when less than the time-to-live has elapsed since it was
    written; a look-up of [key] hits exactly then. *)
Definition fresh (E : Env) (s : State RTUApiClient) (key : string) : bool :=
  match cache (self s) !! key with
  | Some entry =>
      epoch (clock E (reads s)) - timestamp entry <? cacheTimeout (self s)
  | None => false
  end.

(** The two years of an academic-year string of the form [YYYY/YYYY];
    for any other string, the year the clock shows at its next reading and
    the year after. *)
Definition academic_years (E : Env) (reads : nat) (academicYear : string)
  : Z * Z :=
  match Discovery.yearMatch academicYear with
  | Some (y1, y2) => (Discovery.parseInt y1, Discovery.parseInt y2)
  | None =>
      let current := getFullYear (local (clock E reads)) in
      (current, current + 1)
  end.

(** A period takes the default range when it is not selected or an
    authoritative date is missing. *)
Definition lacks_authoritative_dates (semester : Discovery.Semester)
    (metadata : Discovery.SemesterMetadata) : Prop :=
  Discovery.semester_isSelected semester = false
  \/ Discovery.metadata_startDate metadata = None
  \/ Discovery.metadata_endDate metadata = None.

(** The calendar date [y-mm-dd] (month 1 is January), at local midnight
    in the time zone of the platform. *)
Definition calendar_date {zone : TimeZone} (y mm dd : Z) : Date :=
  {| fullYear := y; monthIndex := mm - 1; dayOfMonth := dd; msOfDay := 0;
     timezoneOffset := timezoneOffsetAt y (mm - 1) dd |}.

(** ** Sample data for the examples *)

(** Universal time as the time zone of the platform. *)
Definition utc : TimeZone :=
  {| timezoneOffsetAt := fun _ _ _ => 0;
     timezoneOffsetAt_bounded := fun _ _ _ => conj eq_refl eq_refl |}.

(** The date [t] ms after the epoch, in universal time (for the values of
    [t] used below, a time of day on 1 January 1970). *)
Definition date_at (t : Z) : Date :=
  {| fullYear := 1970; monthIndex := 0; dayOfMonth := 1 + t / msPerDay;
     msOfDay := t mod msPerDay; timezoneOffset := 0 |}.

(** A clock that always shows the instant of [date_at t], which for the
    values of [t] used below is [t] ms after the epoch. *)
Definition clock_at (t : Z) : nat -> Instant :=
  fun _ => mkInstant (timeValue (date_at t)) (date_at t).

(** An environment whose clock shows [t], whose network gives the same
    reply to every request, and whose URL parser accepts the strings that
    begin with [https://] and go on. *)
Definition env_with (t : Z) (reply : Reply) : Env :=
  {| clock := clock_at t;
     network := fun _ _ => reply;
     url_parses := fun base =>
       String.prefix "https://" base && negb (String.eqb base "https://");
     clock_consistent := fun _ => eq_refl |}.

(** A client that has just been constructed with the default options. *)
Definition new_client : State RTUApiClient :=
  mkState (RTUApiClient_new None) 0 [].

(** A client holding one entry, written at time 0. *)
Definition client_with (key : string) (d : JsValue) : State RTUApiClient :=
  mkState (set_cache {[ key := mkEntry d 0 ]} (RTUApiClient_new None)) 0 [].

(** A parser that finds one selected semester, with the given dates, and
    one faculty with one program. *)
Definition sample_parser (startDate endDate : option Date)
  : Discovery.RTUHtmlParser :=
  {| Discovery.parseHtmlSemesters := fun _ =>
       Normal [Discovery.mkSemester 25 "2024/2025 Rudens" true];
     Discovery.parseHtmlSemesterMetadata := fun _ =>
       Normal (Discovery.mkMetadata startDate endDate);
     Discovery.parseHtmlPrograms := fun _ =>
       Normal [Discovery.mkFaculty "DITF" "33000"
                 [Discovery.mkProgram 1 "Datorsistemas (RDBD0)" "RDBD0" ["a"]]] |}.

(** A service constructed with a time-to-live of [ttl] ms. *)
Definition new_service (ttl : Z) : State Discovery.DiscoveryService :=
  mkState (Discovery.DiscoveryService_new (sample_parser None None) None
             (Some ttl))
          0 [].

(** A service constructed with the base URL [base] and a time-to-live
    of [ttl] ms. *)
Definition service_at (base : string) (ttl : Z)
  : State Discovery.DiscoveryService :=
  mkState (Discovery.DiscoveryService_new (sample_parser None None)
             (Some base) (Some ttl))
          0 [].

(** A service whose periods slot and whose programs slot for period 25
    were both written at time 0. *)
Definition service_with (ttl : Z) : State Discovery.DiscoveryService :=
  mkState
    (Discovery.set_programsCache {[ 25 := mkEntry [] 0 ]}
       (Discovery.set_periodsCache (Some (mkEntry [] 0))
          (Discovery.DiscoveryService_new (sample_parser None None) None
             (Some ttl))))
    0 [].

(** A label normalizer that reads every label as the given season of the
    given academic year. *)
Definition constant_normalizer (academicYear season : string)
  : LabelNormalizer :=
  {| parsePeriodCode := fun _ => "";
     parseAcademicYear := fun _ => academicYear;
     parseSeason := fun _ => season;
     parseProgramName := fun label => label |}.

(** Every entry of the live data cache has the shape of its operation's
    results: an array under the key of a list-returning operation, a
    boolean under the key of a publication check. *)
Definition result_shaped (op : Operation) (v : JsValue) : Prop :=
  if returns_list op then Array_isArray v = true else exists b, v = JBool b.

Definition cache_shaped (c : gmap string (CacheEntry JsValue)) : Prop :=
  forall op entry, c !! key_of op = Some entry -> result_shaped op (data entry).

(** All the parameters of an operation are present. *)
Definition all_present (op : Operation) : Prop :=
  match op with
  | FetchSemesterProgramEvents p =>
      is_Some (SemesterProgramEventsParams.semesterProgramId p)
      /\ is_Some (SemesterProgramEventsParams.year p)
      /\ is_Some (SemesterProgramEventsParams.month p)
  | FetchSemesterProgramSubjects i => is_Some i
  | CheckSemesterProgramPublished i => is_Some i
  | FindGroupsByCourse p =>
      is_Some (GroupsByCourseParams.courseId p)
      /\ is_Some (GroupsByCourseParams.semesterId p)
      /\ is_Some (GroupsByCourseParams.programId p)
  | FindCoursesByProgram p =>
      is_Some (CoursesByProgramParams.semesterId p)
      /\ is_Some (CoursesByProgramParams.programId p)
  end.

(** A period of the discovery result as made from a raw semester: the
    identifier, the name and the selection flag are the semester's. *)
Definition made_from (semester : Discovery.Semester)
    (period : Discovery.StudyPeriod) : Prop :=
  Discovery.id period = Discovery.semester_id semester
  /\ Discovery.name period = Discovery.semester_name semester
  /\ Discovery.isSelected period = Discovery.semester_isSelected semester.

(** A string without the separator of the cache keys. *)
Definition no_separator (s : string) : Prop :=
  Forall (fun c => c <> "_"%char) (list_ascii_of_string s).

(** The seasons for which the service has a default range. *)
Definition recognised (season : string) : Prop :=
  season = "autumn" \/ season = "spring" \/ season = "summer".

(** A computation that only reads the clock: it completes normally and
    leaves the fields of the service and the request log alone. *)
Definition reads_only {A} (m : M Discovery.DiscoveryService A) : Prop :=
  forall E s, exists a s',
    run m E s = (Normal a, s') /\ self s' = self s /\ sent s' = sent s.


(** ** Proof support *)

Ltac monad_unfold :=
  unfold run, getFromCache, setCache, Discovery.getCachedPeriods,
    Discovery.getCachedPrograms, try_catch, await_request, Discovery.lift,
    rethrow_api,
    mbind, M_bind, mret, M_ret, this, assign, Date_now, new_Date, throw, tick in *;
  cbn [self reads sent fst snd] in *.

(** Case analysis on every integer comparison in sight. *)
Ltac compare_cases :=
  repeat match goal with
    | |- context [ ?a <? ?b ] => destruct (Z.ltb_spec a b)
    | |- context [ ?a <=? ?b ] => destruct (Z.leb_spec a b)
    | |- context [ ?a =? ?b ] => destruct (Z.eqb_spec a b)
    | H : context [ ?a <? ?b ] |- _ => destruct (Z.ltb_spec a b)
    | H : context [ ?a <=? ?b ] |- _ => destruct (Z.leb_spec a b)
    | H : context [ ?a =? ?b ] |- _ => destruct (Z.eqb_spec a b)
    end.

(** * Properties *)

(** ** The monad *)

Lemma run_bind {O A B} (m : M O A) (k : A -> M O B) E s :
  run (m ≫= k) E s =
  match run m E s with
  | (Normal a, s') => run (k a) E s'
  | (Throw e, s') => (Throw e, s')
  end.
Proof. reflexivity. Qed.

(** ** The look-up and the write of the live data cache *)

Lemma getFromCache_run E (s : State RTUApiClient) key :
  run (getFromCache key) E s =
  match cache (self s) !! key with
  | Some entry =>
      if epoch (clock E (reads s)) - timestamp entry <? cacheTimeout (self s)
      then (Normal (data entry), tick s)
      else (Normal JUndefined,
            mkState (set_cache (delete key (cache (self s))) (self s))
                    (S (reads s)) (sent s))
  | None => (Normal JUndefined, s)
  end.
Proof.
  monad_unfold. destruct (cache (self s) !! key) as [entry|]; [|reflexivity].
  destruct (_ <? _); reflexivity.
Qed.

Lemma setCache_run E (s : State RTUApiClient) key d :
  run (setCache key d) E s =
  (Normal tt,
   mkState (set_cache (<[key := mkEntry d (epoch (clock E (reads s)))]>
                         (cache (self s))) (self s))
           (S (reads s)) (sent s)).
Proof. reflexivity. Qed.

(** ** Parameter validation *)

Lemma reject_positive x :
  falsy x || num_le x 0 = negb (present_positive x).
Proof. destruct x as [n|]; cbn; [compare_cases; lia || reflexivity | reflexivity]. Qed.

Lemma reject_within lo hi x :
  0 < lo ->
  falsy x || num_lt x lo || num_gt x hi = negb (present_within lo hi x).
Proof.
  intros Hlo. destruct x as [n|]; cbn; [compare_cases; lia || reflexivity | reflexivity].
Qed.

Lemma call_run E (s : State RTUApiClient) op :
  run (call op) E s =
  match first_rejected op with
  | Some param => (Throw (Error ("Invalid " +:+ param)), s)
  | None => run (after_validation op) E s
  end.
Proof.
  unfold first_rejected.
  destruct op as [p | i | i | p | p];
    cbn [call parameters List.find snd fst negb];
    unfold fetchSemesterProgramEvents, validateSemesterProgramEventsParams,
      fetchSemesterProgramSubjects, checkSemesterProgramPublished,
      findGroupsByCourse, validateGroupsByCourseParams,
      findCoursesByProgram, validateCoursesByProgramParams;
    rewrite ?reject_positive, ?(reject_within 2000 3000), ?(reject_within 1 12) by lia;
    rewrite !run_bind; unfold run, throw, mret, M_ret;
    repeat match goal with
      | |- context [ present_positive ?x ] => destruct (present_positive x)
      | |- context [ present_within ?a ?b ?x ] => destruct (present_within a b x)
      end; reflexivity.
Qed.

(** ** One call, step by step *)

Lemma after_validation_run E (s : State RTUApiClient) op :
  run (after_validation op) E s =
  match run (getFromCache (key_of op)) E s with
  | (Normal cached, s1) =>
      if hit_test op cached then (Normal cached, s1)
      else
        let s2 := log_request (request_of op) s1 in
        match network E (length (sent s1)) (request_of op) with
        | Response d =>
            match decode op d with
            | Normal v => (Normal v, snd (run (setCache (key_of op) v) E s2))
            | Throw e => (Throw e, s2)
            end
        | Rejects e => (Throw (translate e), s2)
        end
  | (Throw e, s1) => (Throw e, s1)
  end.
Proof.
  unfold after_validation, hit_test, decode, request_of.
  destruct (returns_list op); unfold fetch_list, fetch_flag;
    rewrite run_bind; destruct (run (getFromCache (key_of op)) E s) as [[cached|e] s1];
    try reflexivity.
  - destruct (Boolean cached); [reflexivity|].
    unfold run, try_catch, await_request, mbind, M_bind, log_request, translate, rethrow_api, throw.
    destruct (network E (length (sent s1)) _) as [d|e]; [|destruct (isAxiosError e); reflexivity].
    destruct (eq_null d); reflexivity.
  - destruct (not_undefined cached); [reflexivity|].
    unfold run, try_catch, await_request, mbind, M_bind, log_request, translate, rethrow_api, throw.
    destruct (network E (length (sent s1)) _) as [d|e]; [|destruct (isAxiosError e); reflexivity].
    reflexivity.
Qed.

Lemma lookup_miss E (s : State RTUApiClient) key :
  fresh E s key = false ->
  exists s1,
    run (getFromCache key) E s = (Normal JUndefined, s1)
    /\ sent s1 = sent s
    /\ cacheTimeout (self s1) = cacheTimeout (self s)
    /\ cache (self s1) = delete key (cache (self s)).
Proof.
  unfold fresh. intros Hmiss. rewrite getFromCache_run.
  destruct (cache (self s) !! key) as [entry|] eqn:Hk.
  - rewrite Hmiss. eexists. repeat split; reflexivity.
  - exists s. repeat split. symmetry. by apply delete_id.
Qed.

Lemma lookup_hit E (s : State RTUApiClient) key :
  fresh E s key = true ->
  exists entry,
    cache (self s) !! key = Some entry
    /\ run (getFromCache key) E s = (Normal (data entry), tick s).
Proof.
  unfold fresh. intros Hhit. rewrite getFromCache_run.
  destruct (cache (self s) !! key) as [entry|]; [|discriminate].
  rewrite Hhit. eauto.
Qed.

(** A look-up never throws, never sends, and leaves the cache as it was
    or without a stale entry of the key. *)
Lemma lookup_effect E (s : State RTUApiClient) key :
  exists cached s1,
    run (getFromCache key) E s = (Normal cached, s1)
    /\ sent s1 = sent s
    /\ cacheTimeout (self s1) = cacheTimeout (self s)
    /\ ((cache (self s1) = cache (self s)
         /\ (cached = JUndefined
             \/ exists entry, cache (self s) !! key = Some entry
                              /\ data entry = cached
                              /\ fresh E s key = true))
        \/ (cached = JUndefined
            /\ (exists entry,
                  cache (self s) !! key = Some entry
                  /\ cacheTimeout (self s)
                     <= epoch (clock E (reads s)) - timestamp entry)
            /\ cache (self s1) = delete key (cache (self s)))).
Proof.
  rewrite getFromCache_run. unfold fresh.
  destruct (cache (self s) !! key) as [entry|] eqn:Hk.
  - destruct (Z.ltb_spec (epoch (clock E (reads s)) - timestamp entry)
                         (cacheTimeout (self s))).
    + do 2 eexists. repeat split. left. split; [reflexivity|]. right. eauto.
    + do 2 eexists. repeat split. right. repeat split. eauto.
  - do 2 eexists. repeat split. left. split; [reflexivity|]. by left.
Qed.

Lemma hit_test_undefined op : hit_test op JUndefined = false.
Proof. unfold hit_test. destruct (returns_list op); reflexivity. Qed.

Lemma decode_hit_test op d v : decode op d = Normal v -> hit_test op v = true.
Proof.
  unfold decode, hit_test. destruct (returns_list op).
  - destruct (eq_null d); [discriminate|]. intros [= <-].
    destruct d; reflexivity.
  - intros [= <-]. reflexivity.
Qed.

(** A call that fails writes nothing. *)
Lemma after_validation_failure E (s s' : State RTUApiClient) op e :
  run (after_validation op) E s = (Throw e, s') ->
  cache (self s') = cache (self s)
  \/ (exists entry,
        cache (self s) !! key_of op = Some entry
        /\ cacheTimeout (self s) <= epoch (clock E (reads s)) - timestamp entry)
     /\ cache (self s') = delete (key_of op) (cache (self s)).
Proof.
  rewrite after_validation_run.
  destruct (lookup_effect E s (key_of op)) as (cached & s1 & -> & _ & _ & Hc).
  destruct (hit_test op cached); [discriminate|]. cbn zeta.
  assert (cache (self (log_request (request_of op) s1)) = cache (self s1)) as Hlog
    by reflexivity.
  intros Hrun.
  assert (s' = log_request (request_of op) s1) as ->.
  { destruct (network E _ _); [destruct (decode op data0)|]; congruence. }
  rewrite Hlog. destruct Hc as [[-> _]|(_ & Hstale & ->)]; [by left|by right].
Qed.

(** A call that succeeds leaves its result in the cache under its key. *)
Lemma after_validation_success E (s s' : State RTUApiClient) op v :
  run (after_validation op) E s = (Normal v, s') ->
  hit_test op v = true
  /\ cacheTimeout (self s') = cacheTimeout (self s)
  /\ exists entry, cache (self s') !! key_of op = Some entry /\ data entry = v.
Proof.
  rewrite after_validation_run.
  destruct (lookup_effect E s (key_of op)) as (cached & s1 & -> & _ & Ht & Hc).
  destruct (hit_test op cached) eqn:Hhit.
  - intros [= <- <-]. split; [done|]. split; [done|].
    destruct Hc as [[Hsame [->|(entry & Hk & Hd & _)]]|(-> & _)].
    + by rewrite hit_test_undefined in Hhit.
    + exists entry. by rewrite Hsame.
    + by rewrite hit_test_undefined in Hhit.
  - cbn zeta. destruct (network E _ _) as [d|]; [|discriminate].
    destruct (decode op d) as [w|] eqn:Hd; [|discriminate].
    rewrite setCache_run. cbn [snd]. intros [= <- <-]. cbn [self set_cache cache cacheTimeout log_request].
    split; [by eapply decode_hit_test|]. split; [done|].
    eexists. split; [apply lookup_insert_eq|reflexivity].
Qed.

(** A call whose key has a fresh entry that passes the hit test returns
    it without a request. *)
Lemma after_validation_hit E (s : State RTUApiClient) op entry :
  cache (self s) !! key_of op = Some entry ->
  epoch (clock E (reads s)) - timestamp entry < cacheTimeout (self s) ->
  hit_test op (data entry) = true ->
  run (after_validation op) E s = (Normal (data entry), tick s).
Proof.
  intros Hk Hlt Hhit. rewrite after_validation_run, getFromCache_run, Hk.
  destruct (Z.ltb_spec (epoch (clock E (reads s)) - timestamp entry)
                       (cacheTimeout (self s))); [|lia].
  by rewrite Hhit.
Qed.

(** A call whose key has no fresh entry sends exactly its request. *)
Lemma after_validation_miss E (s s' : State RTUApiClient) op r :
  fresh E s (key_of op) = false ->
  run (after_validation op) E s = (r, s') ->
  sent s' = (sent s ++ [request_of op])%list
  /\ r = match network E (length (sent s)) (request_of op) with
         | Response d => decode op d
         | Rejects e => Throw (translate e)
         end.
Proof.
  intros Hmiss. rewrite after_validation_run.
  destruct (lookup_miss E s _ Hmiss) as (s1 & -> & Hs & _ & _).
  rewrite hit_test_undefined. cbn zeta. rewrite Hs.
  destruct (network E _ _) as [d|e].
  - destruct (decode op d); intros [= <- <-]; cbn; by rewrite Hs.
  - intros [= <- <-]; cbn; by rewrite Hs.
Qed.

(** ** The discovery service, step by step *)

Lemma getCachedPeriods_run E (s : State Discovery.DiscoveryService) :
  run Discovery.getCachedPeriods E s =
  match Discovery.periodsCache (self s) with
  | None => (Normal None, s)
  | Some entry =>
      if Discovery.cacheTimeout (self s)
         <? epoch (clock E (reads s)) - timestamp entry
      then (Normal None,
            mkState (Discovery.set_periodsCache None (self s))
                    (S (reads s)) (sent s))
      else (Normal (Some (data entry)), tick s)
  end.
Proof.
  monad_unfold. destruct (Discovery.periodsCache (self s)); [|reflexivity].
  destruct (_ <? _); reflexivity.
Qed.

Lemma getCachedPrograms_run E (s : State Discovery.DiscoveryService) periodId :
  run (Discovery.getCachedPrograms periodId) E s =
  match Discovery.programsCache (self s) !! periodId with
  | None => (Normal None, s)
  | Some entry =>
      if Discovery.cacheTimeout (self s)
         <? epoch (clock E (reads s)) - timestamp entry
      then (Normal None,
            mkState (Discovery.set_programsCache
                       (delete periodId (Discovery.programsCache (self s)))
                       (self s))
                    (S (reads s)) (sent s))
      else (Normal (Some (data entry)), tick s)
  end.
Proof.
  monad_unfold.
  destruct (Discovery.programsCache (self s) !! periodId); [|reflexivity].
  destruct (_ <? _); reflexivity.
Qed.

Lemma reads_only_ret {A} (a : A) : reads_only (mret a).
Proof. intros E s. exists a, s. repeat split. Qed.

Lemma reads_only_bind {A B} (m : M Discovery.DiscoveryService A)
    (k : A -> M Discovery.DiscoveryService B) :
  reads_only m -> (forall a, reads_only (k a)) -> reads_only (m ≫= k).
Proof.
  intros Hm Hk E s. destruct (Hm E s) as (a & s1 & Hrun & Hself & Hsent).
  destruct (Hk a E s1) as (b & s2 & Hrun2 & Hself2 & Hsent2).
  exists b, s2. rewrite run_bind, Hrun, Hrun2. repeat split; congruence.
Qed.

Lemma reads_only_new_Date : reads_only new_Date.
Proof. intros E s. do 2 eexists. repeat split. Qed.

Section ReadsOnly.
Context {normalizer : LabelNormalizer} {zone : TimeZone}.

Lemma reads_only_defaultDates academicYear season :
  reads_only (Discovery.defaultDates academicYear season).
Proof.
  unfold Discovery.defaultDates. apply reads_only_bind.
  - destruct (Discovery.yearMatch academicYear) as [[y1 y2]|].
    + apply reads_only_ret.
    + apply reads_only_bind; [apply reads_only_new_Date|].
      intros; apply reads_only_ret.
  - intros startYear.
    repeat (destruct (String.eqb season _); [apply reads_only_ret|]).
    apply reads_only_bind; [apply reads_only_new_Date|]. intros.
    apply reads_only_bind; [apply reads_only_new_Date|]. intros.
    apply reads_only_ret.
Qed.

Lemma reads_only_transformToStudyPeriod semester metadata :
  reads_only (Discovery.transformToStudyPeriod semester metadata).
Proof.
  unfold Discovery.transformToStudyPeriod. apply reads_only_bind.
  - destruct (Discovery.semester_isSelected semester),
      (Discovery.metadata_startDate metadata),
      (Discovery.metadata_endDate metadata);
      first [apply reads_only_ret | apply reads_only_defaultDates].
  - intros; apply reads_only_ret.
Qed.

Lemma reads_only_mapM {A B} (f : A -> M Discovery.DiscoveryService B) xs :
  (forall x, reads_only (f x)) -> reads_only (Discovery.mapM f xs).
Proof.
  intros Hf. induction xs as [|x xs IH]; cbn [Discovery.mapM].
  - apply reads_only_ret.
  - apply reads_only_bind; [apply Hf|]. intros y.
    apply reads_only_bind; [apply IH|]. intros ys. apply reads_only_ret.
Qed.

(** [fetchMainPage] touches no field; it sends one request, unless the
    base URL does not parse, and then it throws before sending. *)
Lemma fetchMainPage_run E (s : State Discovery.DiscoveryService) semesterId :
  run (Discovery.fetchMainPage semesterId) E s =
  if url_parses E (Discovery.baseUrl (self s)) then
    (match network E (length (sent s)) (GET semesterId) with
     | Response html => Normal html
     | Rejects e =>
         Throw (if isAxiosError e
                then DiscoveryError
                       ("HTTP request failed: " +:+ error_message e) None
                else e)
     end,
     mkState (self s) (reads s) (sent s ++ [GET semesterId]))
  else (Throw (TypeError "Invalid URL"), s).
Proof.
  unfold Discovery.fetchMainPage, new_URL. monad_unfold.
  destruct (url_parses E _); [|reflexivity].
  destruct (network E _ _) as [d|e]; [reflexivity|].
  destruct (isAxiosError e); reflexivity.
Qed.

(** The [try] block of [discoverPeriods]: when it throws, no field of
    the service has changed; when it completes, the one change is the
    periods slot, written last. *)
Lemma fetch_periods_run E (s s' : State Discovery.DiscoveryService) r :
  run Discovery.fetch_periods E s = (r, s') ->
  match r with
  | Throw _ => self s' = self s
  | Normal periods =>
      exists now, self s' = Discovery.set_periodsCache
                              (Some (mkEntry periods now)) (self s)
  end.
Proof.
  unfold Discovery.fetch_periods. rewrite run_bind, fetchMainPage_run.
  destruct (url_parses E _); [|by intros [= <- <-]].
  destruct (network E _ _) as [html|e]; [|by intros [= <- <-]].
  rewrite run_bind. unfold this at 1, run at 1. cbn [self].
  rewrite run_bind. unfold Discovery.lift at 1, run at 1.
  destruct (Discovery.parseHtmlSemesters _ html) as [semesters|e];
    [|by intros [= <- <-]].
  rewrite run_bind. unfold Discovery.lift at 1, run at 1.
  destruct (Discovery.parseHtmlSemesterMetadata _ html) as [metadata|e];
    [|by intros [= <- <-]].
  rewrite run_bind.
  match goal with
  | |- context [ run (Discovery.mapM ?f semesters) E ?st ] =>
      destruct (reads_only_mapM f semesters
                  (fun x => reads_only_transformToStudyPeriod x metadata)
                  E st) as (periods & s2 & -> & Hself & Hsent)
  end.
  intros [= <- <-]. eexists. cbn [self]. by rewrite Hself.
Qed.

Lemma fetch_programs_run E (s s' : State Discovery.DiscoveryService)
    periodId r :
  run (Discovery.fetch_programs periodId) E s = (r, s') ->
  match r with
  | Throw _ => self s' = self s
  | Normal programs =>
      exists now, self s' = Discovery.set_programsCache
                              (<[periodId := mkEntry programs now]>
                                 (Discovery.programsCache (self s)))
                              (self s)
  end.
Proof.
  unfold Discovery.fetch_programs. rewrite run_bind, fetchMainPage_run.
  destruct (url_parses E _); [|by intros [= <- <-]].
  destruct (network E _ _) as [html|e]; [|by intros [= <- <-]].
  rewrite run_bind. unfold this at 1, run at 1. cbn [self].
  rewrite run_bind. unfold Discovery.lift at 1, run at 1.
  destruct (Discovery.parseHtmlPrograms _ html) as [faculties|e];
    [|by intros [= <- <-]].
  intros [= <- <-]. eexists. reflexivity.
Qed.

(** A try block wrapped by the discovery [catch]: a throw is rethrown
    as a discovery error from the same state. *)
Lemma try_wrap_run {A} (m : M Discovery.DiscoveryService A) message E s :
  run (try_catch m (Discovery.wrap message)) E s =
  match run m E s with
  | (Normal a, s') => (Normal a, s')
  | (Throw e, s') =>
      (Throw (DiscoveryError message
                (if instanceof_Error e then Some e else None)), s')
  end.
Proof. reflexivity. Qed.

End ReadsOnly.

(** ** The expiring caches *)

(** C1, as the code has it. Each cache is read on its own, whatever the
    other caches hold. A read of the live data cache returns the stored
    value exactly while less than the time-to-live has elapsed since the
    entry was written; from then on it returns [undefined] and deletes the
    entry. A read of either discovery cache keeps the entry one instant
    longer: it returns the stored value while the elapsed time is at most
    the time-to-live, and returns [null] and empties the slot once the
    elapsed time exceeds it. *)
Theorem cache_read_expiry (E : Env) :
  (forall (c : State RTUApiClient) (key : string)
          (entry : CacheEntry JsValue),
     cache (self c) !! key = Some entry ->
     (epoch (clock E (reads c)) - timestamp entry < cacheTimeout (self c) ->
      run (getFromCache key) E c = (Normal (data entry), tick c))
     /\ (cacheTimeout (self c) <= epoch (clock E (reads c)) - timestamp entry ->
         exists c',
           run (getFromCache key) E c = (Normal JUndefined, c')
           /\ cache (self c') = delete key (cache (self c))
           /\ cache (self c') !! key = None))
  /\ (forall (d : State Discovery.DiscoveryService)
             (periods : CacheEntry (list Discovery.StudyPeriod)),
        Discovery.periodsCache (self d) = Some periods ->
        (epoch (clock E (reads d)) - timestamp periods
           <= Discovery.cacheTimeout (self d) ->
         run Discovery.getCachedPeriods E d
           = (Normal (Some (data periods)), tick d))
        /\ (Discovery.cacheTimeout (self d)
              < epoch (clock E (reads d)) - timestamp periods ->
            exists d',
              run Discovery.getCachedPeriods E d = (Normal None, d')
              /\ Discovery.periodsCache (self d') = None
              /\ Discovery.programsCache (self d')
                   = Discovery.programsCache (self d)))
  /\ (forall (d : State Discovery.DiscoveryService) (periodId : Z)
             (programs : CacheEntry (list Discovery.StudyProgram)),
        Discovery.programsCache (self d) !! periodId = Some programs ->
        (epoch (clock E (reads d)) - timestamp programs
           <= Discovery.cacheTimeout (self d) ->
         run (Discovery.getCachedPrograms periodId) E d
           = (Normal (Some (data programs)), tick d))
        /\ (Discovery.cacheTimeout (self d)
              < epoch (clock E (reads d)) - timestamp programs ->
            exists d',
              run (Discovery.getCachedPrograms periodId) E d = (Normal None, d')
              /\ Discovery.programsCache (self d')
                   = delete periodId (Discovery.programsCache (self d))
              /\ Discovery.programsCache (self d') !! periodId = None
              /\ Discovery.periodsCache (self d')
                   = Discovery.periodsCache (self d))).
Proof.
  split; [|split].
  - intros c key entry Hkey. rewrite getFromCache_run, Hkey.
    split; intros Ht;
      destruct (Z.ltb_spec (epoch (clock E (reads c)) - timestamp entry)
                           (cacheTimeout (self c))); try lia.
    + reflexivity.
    + eexists. split; [reflexivity|]. cbn [self set_cache cache].
      split; [reflexivity | apply lookup_delete_eq].
  - intros d periods Hperiods. rewrite getCachedPeriods_run, Hperiods.
    split; intros Ht;
      destruct (Z.ltb_spec (Discovery.cacheTimeout (self d))
                           (epoch (clock E (reads d)) - timestamp periods));
      try lia.
    + reflexivity.
    + eexists. split; [reflexivity|]. split; reflexivity.
  - intros d periodId programs Hprograms.
    rewrite getCachedPrograms_run, Hprograms.
    split; intros Ht;
      destruct (Z.ltb_spec (Discovery.cacheTimeout (self d))
                           (epoch (clock E (reads d)) - timestamp programs));
      try lia.
    + reflexivity.
    + eexists. split; [reflexivity|]. cbn [self].
      split; [reflexivity|]. split; [apply lookup_delete_eq | reflexivity].
Qed.

(** The claim of C1 taken literally fails for the discovery caches: with a
    time-to-live of 1000 ms and an entry written at time 0, a read at time
    1000 (elapsed = time-to-live) still returns the stored list and leaves
    the slot occupied. *)
Lemma getCachedPeriods_at_ttl :
  let E := env_with 1000 (Response JNull) in
  let d := service_with 1000 in
  Discovery.periodsCache (self d) = Some (mkEntry [] 0)
  /\ Discovery.cacheTimeout (self d) <= epoch (clock E (reads d)) - 0
  /\ fst (run Discovery.getCachedPeriods E d) = Normal (Some [])
  /\ Discovery.periodsCache (self (snd (run Discovery.getCachedPeriods E d)))
     = Some (mkEntry [] 0).
Proof. cbv zeta. repeat split. apply Z.leb_le. reflexivity. Qed.

Lemma cache_read_expiry_example :
  let E := env_with 1000 (Response JNull) in
  (run (getFromCache "subjects_7") E (client_with "subjects_7" (JArr []))
   = (Normal (JArr []), tick (client_with "subjects_7" (JArr []))))
  /\ (exists d',
        run Discovery.getCachedPeriods E (service_with 999) = (Normal None, d')
        /\ Discovery.periodsCache (self d') = None)
  /\ run (Discovery.getCachedPrograms 25) E (service_with 1000)
     = (Normal (Some []), tick (service_with 1000)).
Proof.
  cbv zeta.
  destruct (cache_read_expiry (env_with 1000 (Response JNull)))
    as (Hlive & Hperiods & Hprograms).
  split; [|split].
  - apply (Hlive (client_with "subjects_7" (JArr [])) "subjects_7"
             (mkEntry (JArr []) 0) eq_refl).
    apply Z.ltb_lt. reflexivity.
  - destruct (proj2 (Hperiods (service_with 999) (mkEntry [] 0) eq_refl))
      as (d' & Hrun & Hnone & _); [apply Z.ltb_lt; reflexivity|].
    exists d'. split; assumption.
  - apply (Hprograms (service_with 1000) 25 (mkEntry [] 0) eq_refl).
    apply Z.leb_le. reflexivity.
Defined.

(** ** Validation before any network access *)

Lemma first_rejected_some op name :
  In (name, false) (parameters op) ->
  exists param,
    first_rejected op = Some param /\ In (param, false) (parameters op).
Proof.
  unfold first_rejected. intros Hin.
  destruct (List.find (fun c => negb (snd c)) (parameters op)) as [[param ok]|]
    eqn:Hfind.
  - apply find_some in Hfind as [Hin' Hok]. cbn in Hok.
    destruct ok; [discriminate|]. exists param. split; [reflexivity | exact Hin'].
  - eapply find_none in Hfind; [|exact Hin]. discriminate.
Qed.

(** C7. When some parameter of an operation is missing, not positive or
    (for a year or a month) out of range, the call throws the error that
    names such a parameter, and the state is the one before the call: no
    request has been sent, the clock has not been read and the cache is
    untouched. In particular [fetchSemesterProgramEvents] with
    [semesterProgramId] 0, year 2024 and month 5 throws
    ['Invalid semesterProgramId'] without a request. *)
Theorem validation_before_network (E : Env) (s : State RTUApiClient) :
  (forall op name,
     In (name, false) (parameters op) ->
     exists param,
       In (param, false) (parameters op)
       /\ run (call op) E s = (Throw (Error ("Invalid " +:+ param)), s))
  /\ run (fetchSemesterProgramEvents
            (SemesterProgramEventsParams.make (Some 0) (Some 2024) (Some 5)))
         E s
     = (Throw (Error "Invalid semesterProgramId"), s).
Proof.
  split.
  - intros op name Hin.
    destruct (first_rejected_some op name Hin) as (param & Hfirst & Hin').
    exists param. split; [exact Hin'|]. by rewrite call_run, Hfirst.
  - exact (call_run E s
             (FetchSemesterProgramEvents
                (SemesterProgramEventsParams.make (Some 0) (Some 2024) (Some 5)))).
Qed.

Lemma validation_before_network_example :
  exists param,
    In (param, false)
       (parameters (FindGroupsByCourse
                      (GroupsByCourseParams.make (Some 3) None (Some (-1)))))
    /\ run (findGroupsByCourse
              (GroupsByCourseParams.make (Some 3) None (Some (-1))))
           (env_with 0 (Response JNull)) new_client
       = (Throw (Error ("Invalid " +:+ param)), new_client).
Proof.
  apply (proj1 (validation_before_network (env_with 0 (Response JNull))
                  new_client)
           (FindGroupsByCourse
              (GroupsByCourseParams.make (Some 3) None (Some (-1))))
           "programId").
  cbn. tauto.
Defined.

(** ** Response bodies *)

Lemma call_miss E (s s' : State RTUApiClient) op r :
  first_rejected op = None ->
  fresh E s (key_of op) = false ->
  run (call op) E s = (r, s') ->
  (sent s' = sent s ++ [request_of op])%list
  /\ r = match network E (length (sent s)) (request_of op) with
         | Response d => decode op d
         | Rejects e => Throw (translate e)
         end.
Proof.
  intros Hvalid Hmiss. rewrite call_run, Hvalid.
  by apply after_validation_miss.
Qed.

(** The claim of C2 taken literally fails for the publication check: on a
    miss with a [null] body it throws nothing, returns [false] and caches
    it. *)
Lemma checkSemesterProgramPublished_null_body :
  let E := env_with 0 (Response JNull) in
  let r := run (checkSemesterProgramPublished (Some 7)) E new_client in
  fresh E new_client (published_key (Some 7)) = false
  /\ fst r = Normal (JBool false)
  /\ data <$> cache (self (snd r)) !! published_key (Some 7)
     = Some (JBool false).
Proof. cbv zeta. repeat split. Qed.

(** C2, as the code has it. On a miss (no fresh entry under the key) with
    valid parameters and a response from the transport: each of the four
    list-returning operations throws ['Invalid response data'] when the
    body is [null] or [undefined], which is no transport error (those
    read ['API request failed: ...']), and returns the empty list when the
    body is present but not an array; the publication check never throws
    on a body: it returns [false] for a [null] or [undefined] body and the
    truthiness of any other body. *)
Theorem response_body_handling
    (E : Env) (s : State RTUApiClient) (op : Operation) (body : JsValue) :
  first_rejected op = None ->
  fresh E s (key_of op) = false ->
  network E (length (sent s)) (request_of op) = Response body ->
  (returns_list op = true ->
     (eq_null body = true ->
        fst (run (call op) E s) = Throw (Error "Invalid response data")
        /\ forall e, isAxiosError e = true ->
             translate e <> Error "Invalid response data")
     /\ (eq_null body = false -> Array_isArray body = false ->
           fst (run (call op) E s) = Normal (JArr []))
     /\ (Array_isArray body = true ->
           fst (run (call op) E s) = Normal body))
  /\ (returns_list op = false ->
        fst (run (call op) E s)
        = Normal (JBool (if eq_null body then false else Boolean body))).
Proof.
  intros Hvalid Hmiss Hnet.
  destruct (run (call op) E s) as [r s'] eqn:Hrun.
  destruct (call_miss E s s' op r Hvalid Hmiss Hrun) as [_ ->].
  rewrite Hnet. unfold decode. cbn [fst].
  split; intros ->.
  - split; [|split].
    + intros ->. split; [reflexivity|].
      unfold translate. intros e ->. discriminate.
    + intros -> ->. reflexivity.
    + intros Harr. destruct body; try discriminate. reflexivity.
  - destruct (eq_null body); reflexivity.
Qed.

Lemma response_body_handling_example :
  fst (run (fetchSemesterProgramSubjects (Some 7))
           (env_with 0 (Response (JObj []))) new_client)
  = Normal (JArr []).
Proof.
  apply (response_body_handling (env_with 0 (Response (JObj []))) new_client
           (FetchSemesterProgramSubjects (Some 7)) (JObj []));
    reflexivity.
Defined.

(** ** Calls served from the cache *)

Lemma same_parameters_eq a b : same_parameters a b -> a = b.
Proof.
  destruct a as [[] | | | [] | []], b as [[] | | | [] | []]; cbn;
    try contradiction; intuition congruence.
Qed.

(** A call that returned [v] is followed, while its entry is fresh, by a
    call that returns [v] again and sends nothing. *)
Lemma call_again E (s0 s1 : State RTUApiClient) op v :
  run (call op) E s0 = (Normal v, s1) ->
  fresh E s1 (key_of op) = true ->
  run (call op) E s1 = (Normal v, tick s1).
Proof.
  rewrite !call_run. destruct (first_rejected op); [discriminate|].
  intros Hfirst Hfresh.
  apply after_validation_success in Hfirst as (Hhit & _ & entry & Hk & <-).
  unfold fresh in Hfresh. rewrite Hk in Hfresh.
  apply after_validation_hit; [exact Hk | lia | exact Hhit].
Qed.

(** C8. When a publication check has returned [false], a second check of
    the same program while the entry is fresh (less than the time-to-live
    after it was written) returns the cached [false] and sends no
    request: [false] in the cache is a hit. An absent entry is told apart
    from it: with no entry under the key, the call sends its request. *)
Theorem cached_false_is_a_hit
    (E : Env) (s0 s1 : State RTUApiClient) (semesterProgramId : JsNumber) :
  run (checkSemesterProgramPublished semesterProgramId) E s0
    = (Normal (JBool false), s1) ->
  fresh E s1 (published_key semesterProgramId) = true ->
  (exists s2,
     run (checkSemesterProgramPublished semesterProgramId) E s1
       = (Normal (JBool false), s2)
     /\ sent s2 = sent s1)
  /\ (forall E' (s : State RTUApiClient),
        cache (self s) !! published_key semesterProgramId = None ->
        sent (snd (run (checkSemesterProgramPublished semesterProgramId) E' s))
        = (sent s ++ [request_of (CheckSemesterProgramPublished
                                    semesterProgramId)])%list).
Proof.
  intros Hfirst Hfresh. split.
  - exists (tick s1). split; [|reflexivity].
    exact (call_again E s0 s1 (CheckSemesterProgramPublished semesterProgramId)
             (JBool false) Hfirst Hfresh).
  - intros E' s Hnone.
    pose proof (call_run E s0 (CheckSemesterProgramPublished semesterProgramId))
      as Hvalid.
    cbn [call] in Hvalid. rewrite Hfirst in Hvalid.
    destruct (first_rejected (CheckSemesterProgramPublished semesterProgramId))
      eqn:Hrej; [discriminate|].
    destruct (run (checkSemesterProgramPublished semesterProgramId) E' s)
      as [r s'] eqn:Hrun.
    apply (call_miss E' s s' (CheckSemesterProgramPublished semesterProgramId) r
             Hrej); [|exact Hrun].
    unfold fresh. cbn [key_of]. by rewrite Hnone.
Qed.

Lemma cached_false_is_a_hit_example :
  let E := env_with 1000 (Response (JNum 0)) in
  let s1 := snd (run (checkSemesterProgramPublished (Some 7)) E new_client) in
  exists s2,
    run (checkSemesterProgramPublished (Some 7)) E s1 = (Normal (JBool false), s2)
    /\ sent s2 = sent s1.
Proof.
  cbv zeta.
  apply (cached_false_is_a_hit (env_with 1000 (Response (JNum 0))) new_client
           _ (Some 7)); reflexivity.
Defined.

(** A call that finds no fresh entry and succeeds leaves its result under
    its key, stamped with the last reading of the clock that it made. *)
Lemma call_miss_entry E (s s1 : State RTUApiClient) op v :
  fresh E s (key_of op) = false ->
  run (call op) E s = (Normal v, s1) ->
  cacheTimeout (self s1) = cacheTimeout (self s)
  /\ cache (self s1) !! key_of op
     = Some (mkEntry v (epoch (clock E (Nat.pred (reads s1))))).
Proof.
  intros Hmiss. rewrite call_run.
  destruct (first_rejected op); [discriminate|].
  rewrite after_validation_run.
  destruct (lookup_miss E s _ Hmiss) as (s' & -> & _ & Httl & _).
  rewrite hit_test_undefined. cbn zeta.
  destruct (network E _ _) as [d|e]; [|discriminate].
  destruct (decode op d) as [w|e]; [|discriminate].
  rewrite setCache_run. cbn [snd]. intros [= <- <-].
  cbn [self reads set_cache cache cacheTimeout log_request Nat.pred].
  split; [exact Httl | apply lookup_insert_eq].
Qed.

(** C9. Two calls with the same values for every parameter have the same
    cache key. When the first of them finds no fresh entry, goes to the
    network and succeeds, and the clock at the second call's look-up shows
    less than the time-to-live more than it showed at the last reading of
    the first call, the second call returns the same result from the
    cache: after both calls the log of requests holds exactly the one
    request of the first call on top of what was there before. *)
Theorem second_call_served_from_cache
    (E : Env) (s0 s1 : State RTUApiClient) (op1 op2 : Operation)
    (v : JsValue) :
  same_parameters op1 op2 ->
  fresh E s0 (key_of op1) = false ->
  run (call op1) E s0 = (Normal v, s1) ->
  epoch (clock E (reads s1)) - epoch (clock E (Nat.pred (reads s1)))
    < cacheTimeout (self s0) ->
  key_of op2 = key_of op1
  /\ exists s2,
       run (call op2) E s1 = (Normal v, s2)
       /\ sent s2 = (sent s0 ++ [request_of op1])%list.
Proof.
  intros Hsame Hmiss Hfirst Hwindow.
  apply same_parameters_eq in Hsame as <-. split; [reflexivity|].
  destruct (call_miss_entry E s0 s1 op1 v Hmiss Hfirst) as [Httl Hentry].
  exists (tick s1). split.
  - apply (call_again E s0 s1 op1 v Hfirst).
    unfold fresh. rewrite Hentry, Httl. cbn [timestamp].
    by apply Z.ltb_lt.
  - pose proof (call_run E s0 op1) as Hvalid. rewrite Hfirst in Hvalid.
    destruct (first_rejected op1) eqn:Hrej; [discriminate|].
    change (sent (tick s1)) with (sent s1).
    by destruct (call_miss E s0 s1 op1 _ Hrej Hmiss Hfirst) as [-> _].
Qed.

Lemma second_call_served_from_cache_example :
  let E := env_with 1000 (Response (JArr [JStr "Mathematics"])) in
  let p := SemesterProgramEventsParams.make (Some 27316) (Some 2025) (Some 3) in
  let s1 := snd (run (fetchSemesterProgramEvents p) E new_client) in
  events_key p = "events_27316_2025_3"
  /\ exists s2,
       run (fetchSemesterProgramEvents p) E s1
         = (Normal (JArr [JStr "Mathematics"]), s2)
       /\ sent s2 = [request_of (FetchSemesterProgramEvents p)].
Proof.
  cbv zeta. split; [reflexivity|].
  apply (second_call_served_from_cache
           (env_with 1000 (Response (JArr [JStr "Mathematics"]))) new_client _
           (FetchSemesterProgramEvents
              (SemesterProgramEventsParams.make (Some 27316) (Some 2025) (Some 3)))
           (FetchSemesterProgramEvents
              (SemesterProgramEventsParams.make (Some 27316) (Some 2025) (Some 3)))
           (JArr [JStr "Mathematics"])).
  - cbn [same_parameters]. repeat split; reflexivity.
  - reflexivity.
  - reflexivity.
  - apply Z.ltb_lt. reflexivity.
Defined.

(** ** Failed calls and the caches *)

Section DiscoveryCalls.
Context {normalizer : LabelNormalizer} {zone : TimeZone}.

(** What a call of [discoverPeriods] does to the fields of the service,
    by its outcome. *)
Lemma discoverPeriods_effect E (d d' : State Discovery.DiscoveryService) r :
  run Discovery.discoverPeriods E d = (r, d') ->
  Discovery.programsCache (self d') = Discovery.programsCache (self d)
  /\ Discovery.cacheTimeout (self d') = Discovery.cacheTimeout (self d)
  /\ match r with
     | Throw _ =>
         Discovery.periodsCache (self d') = Discovery.periodsCache (self d)
         \/ (exists entry,
               Discovery.periodsCache (self d) = Some entry
               /\ Discovery.cacheTimeout (self d)
                  < epoch (clock E (reads d)) - timestamp entry)
            /\ Discovery.periodsCache (self d') = None
     | Normal periods =>
         exists entry,
           Discovery.periodsCache (self d') = Some entry
           /\ data entry = periods
     end.
Proof.
  unfold Discovery.discoverPeriods. rewrite run_bind, getCachedPeriods_run.
  destruct (Discovery.periodsCache (self d)) as [entry|] eqn:Hslot.
  - destruct (Z.ltb_spec (Discovery.cacheTimeout (self d))
                         (epoch (clock E (reads d)) - timestamp entry)).
    + rewrite try_wrap_run.
      destruct (run Discovery.fetch_periods E _) as [r1 s1] eqn:Hrun.
      apply fetch_periods_run in Hrun. cbn [self] in Hrun.
      destruct r1 as [periods|e]; intros [= <- <-].
      * destruct Hrun as (now & ->). repeat split. eexists; split; reflexivity.
      * rewrite Hrun. repeat split. right. split; [eauto | reflexivity].
    + intros [= <- <-]. repeat split. cbn [self tick]. eauto.
  - rewrite try_wrap_run.
    destruct (run Discovery.fetch_periods E d) as [r1 s1] eqn:Hrun.
    apply fetch_periods_run in Hrun.
    destruct r1 as [periods|e]; intros [= <- <-].
    + destruct Hrun as (now & ->). repeat split. eexists; split; reflexivity.
    + rewrite Hrun. repeat split. by left.
Qed.

(** What a call of [discoverPrograms] does to the fields of the
    service, by its outcome. *)
Lemma discoverPrograms_effect E (d d' : State Discovery.DiscoveryService)
    periodId r :
  run (Discovery.discoverPrograms periodId) E d = (r, d') ->
  Discovery.periodsCache (self d') = Discovery.periodsCache (self d)
  /\ Discovery.cacheTimeout (self d') = Discovery.cacheTimeout (self d)
  /\ (forall p, p <> periodId ->
        Discovery.programsCache (self d') !! p
        = Discovery.programsCache (self d) !! p)
  /\ match r with
     | Throw _ =>
         Discovery.programsCache (self d') = Discovery.programsCache (self d)
         \/ (exists entry,
               Discovery.programsCache (self d) !! periodId = Some entry
               /\ Discovery.cacheTimeout (self d)
                  < epoch (clock E (reads d)) - timestamp entry)
            /\ Discovery.programsCache (self d')
               = delete periodId (Discovery.programsCache (self d))
     | Normal programs =>
         exists entry,
           Discovery.programsCache (self d') !! periodId = Some entry
           /\ data entry = programs
     end.
Proof.
  unfold Discovery.discoverPrograms. rewrite run_bind, getCachedPrograms_run.
  destruct (Discovery.programsCache (self d) !! periodId) as [entry|] eqn:Hslot.
  - destruct (Z.ltb_spec (Discovery.cacheTimeout (self d))
                         (epoch (clock E (reads d)) - timestamp entry)).
    + rewrite try_wrap_run.
      destruct (run (Discovery.fetch_programs periodId) E _) as [r1 s1] eqn:Hrun.
      apply fetch_programs_run in Hrun. cbn [self] in Hrun.
      destruct r1 as [programs|e]; intros [= <- <-].
      * destruct Hrun as (now & ->). cbn. repeat split.
        -- intros p Hp. by rewrite lookup_insert_ne, lookup_delete_ne.
        -- eexists. split; [apply lookup_insert_eq | reflexivity].
      * rewrite Hrun. cbn. repeat split.
        -- intros p Hp. by rewrite lookup_delete_ne.
        -- right. split; [eauto | reflexivity].
    + intros [= <- <-]. repeat split. cbn [self tick]. eauto.
  - rewrite try_wrap_run.
    destruct (run (Discovery.fetch_programs periodId) E d) as [r1 s1] eqn:Hrun.
    apply fetch_programs_run in Hrun.
    destruct r1 as [programs|e]; intros [= <- <-].
    + destruct Hrun as (now & ->). cbn. repeat split.
      * intros p Hp. by rewrite lookup_insert_ne.
      * eexists. split; [apply lookup_insert_eq | reflexivity].
    + rewrite Hrun. repeat split. by left.
Qed.

Lemma discoverCurrentPeriod_throw E (d d' : State Discovery.DiscoveryService) e :
  run Discovery.discoverCurrentPeriod E d = (Throw e, d') ->
  run Discovery.discoverPeriods E d = (Throw e, d').
Proof.
  unfold Discovery.discoverCurrentPeriod. rewrite run_bind.
  destruct (run Discovery.discoverPeriods E d) as [[periods|e'] d1];
    [discriminate | by intros [= <- <-]].
Qed.

End DiscoveryCalls.

Lemma call_failure E (s s' : State RTUApiClient) op e :
  run (call op) E s = (Throw e, s') ->
  cache (self s') = cache (self s)
  \/ (exists entry,
        cache (self s) !! key_of op = Some entry
        /\ cacheTimeout (self s) <= epoch (clock E (reads s)) - timestamp entry)
     /\ cache (self s') = delete (key_of op) (cache (self s)).
Proof.
  rewrite call_run. destruct (first_rejected op).
  - intros [= _ <-]. by left.
  - apply after_validation_failure.
Qed.

(** The claim of C6 taken literally fails: a call that finds a stale entry
    under its key evicts it before it goes to the network, so when the
    request then fails the cache is not what it was before the call.
    Here the entry was written at time 0, the time-to-live is the default
    300000 ms, and the call is made at time 300000. *)
Lemma failed_call_evicts_stale_entry :
  let E := env_with 300000 (Rejects (AxiosError "timeout of 10000ms exceeded")) in
  let s := client_with "subjects_7" (JArr []) in
  let r := run (fetchSemesterProgramSubjects (Some 7)) E s in
  fst r = Throw (Error "API request failed: timeout of 10000ms exceeded")
  /\ cache (self s) !! "subjects_7" = Some (mkEntry (JArr []) 0)
  /\ cache (self (snd r)) !! "subjects_7" = None
  /\ cache (self (snd r)) <> cache (self s).
Proof.
  cbv zeta. split; [reflexivity|]. split; [reflexivity|]. split; [reflexivity|].
  intros Heq.
  apply (f_equal (fun m : gmap string (CacheEntry JsValue) => m !! "subjects_7"))
    in Heq.
  discriminate Heq.
Qed.

(** C6, as the code has it. A call that fails writes no entry. After a
    failed live data call the cache is what it was before the call, or,
    when the call found a stale entry under its own key, what it was
    without that entry. After a failed [discoverPeriods] (or
    [discoverCurrentPeriod]) the programs cache is what it was and the
    periods slot is what it was or, when it held a stale entry, empty;
    after a failed [discoverPrograms] the periods slot is what it was and
    the programs cache is what it was or, when the slot of the period held
    a stale entry, what it was without that entry. *)
Theorem failure_writes_nothing {normalizer : LabelNormalizer}
    {zone : TimeZone} (E : Env) :
  (forall (s s' : State RTUApiClient) op e,
     run (call op) E s = (Throw e, s') ->
     cache (self s') = cache (self s)
     \/ (exists entry,
           cache (self s) !! key_of op = Some entry
           /\ cacheTimeout (self s)
              <= epoch (clock E (reads s)) - timestamp entry)
        /\ cache (self s') = delete (key_of op) (cache (self s)))
  /\ (forall (d d' : State Discovery.DiscoveryService) e,
        run Discovery.discoverPeriods E d = (Throw e, d')
        \/ run Discovery.discoverCurrentPeriod E d = (Throw e, d') ->
        Discovery.programsCache (self d') = Discovery.programsCache (self d)
        /\ (Discovery.periodsCache (self d') = Discovery.periodsCache (self d)
            \/ (exists entry,
                  Discovery.periodsCache (self d) = Some entry
                  /\ Discovery.cacheTimeout (self d)
                     < epoch (clock E (reads d)) - timestamp entry)
               /\ Discovery.periodsCache (self d') = None))
  /\ (forall (d d' : State Discovery.DiscoveryService) periodId e,
        run (Discovery.discoverPrograms periodId) E d = (Throw e, d') ->
        Discovery.periodsCache (self d') = Discovery.periodsCache (self d)
        /\ (Discovery.programsCache (self d')
              = Discovery.programsCache (self d)
            \/ (exists entry,
                  Discovery.programsCache (self d) !! periodId = Some entry
                  /\ Discovery.cacheTimeout (self d)
                     < epoch (clock E (reads d)) - timestamp entry)
               /\ Discovery.programsCache (self d')
                  = delete periodId (Discovery.programsCache (self d)))).
Proof.
  split; [|split].
  - intros s s' op e. apply call_failure.
  - intros d d' e [Hrun|Hrun]; [|apply discoverCurrentPeriod_throw in Hrun];
      apply discoverPeriods_effect in Hrun; tauto.
  - intros d d' periodId e Hrun.
    apply discoverPrograms_effect in Hrun. tauto.
Qed.

Lemma failure_writes_nothing_example :
  let E := env_with 1000 (Rejects (AxiosError "Network Error")) in
  let d := service_with 3600000 in
  let r := run (Discovery.discoverPrograms
                  (normalizer := constant_normalizer "2024/2025" "autumn") 26)
               E d in
  fst r = Throw (DiscoveryError "Failed to fetch programs"
                   (Some (DiscoveryError "HTTP request failed: Network Error"
                            None)))
  /\ Discovery.periodsCache (self (snd r)) = Discovery.periodsCache (self d)
  /\ Discovery.programsCache (self (snd r)) !! 25
     = Discovery.programsCache (self d) !! 25.
Proof.
  cbv zeta. split; [reflexivity|].
  destruct (proj2 (proj2 (@failure_writes_nothing
                            (constant_normalizer "2024/2025" "autumn") utc
                            (env_with 1000 (Rejects (AxiosError "Network Error")))))
              (service_with 3600000)
              (snd (run (Discovery.discoverPrograms
                           (normalizer := constant_normalizer "2024/2025" "autumn")
                           26)
                      (env_with 1000 (Rejects (AxiosError "Network Error")))
                      (service_with 3600000)))
              26
              (DiscoveryError "Failed to fetch programs"
                 (Some (DiscoveryError "HTTP request failed: Network Error"
                          None))))
    as [Hperiods Hprograms]; [reflexivity|].
  split; [exact Hperiods|].
  destruct Hprograms as [->|[(entry & Hentry & _) _]];
    [reflexivity | discriminate Hentry].
Defined.

(** ** The frame of [discoverPrograms] *)

(** C10. A successful [discoverPrograms(p)] leaves the periods slot and
    every programs slot other than that of [p] as they were, and a read of
    the periods cache or of the programs cache for another period gives
    after the call what it would have given before. *)
Theorem discoverPrograms_frame {normalizer : LabelNormalizer}
    (E : Env) (d d' : State Discovery.DiscoveryService) (periodId : Z)
    (programs : list Discovery.StudyProgram) :
  run (Discovery.discoverPrograms periodId) E d = (Normal programs, d') ->
  Discovery.periodsCache (self d') = Discovery.periodsCache (self d)
  /\ (forall p, p <> periodId ->
        Discovery.programsCache (self d') !! p
        = Discovery.programsCache (self d) !! p)
  /\ (forall p E' n l, p <> periodId ->
        fst (run (Discovery.getCachedPrograms p) E' (mkState (self d') n l))
        = fst (run (Discovery.getCachedPrograms p) E' (mkState (self d) n l)))
  /\ (forall E' n l,
        fst (run Discovery.getCachedPeriods E' (mkState (self d') n l))
        = fst (run Discovery.getCachedPeriods E' (mkState (self d) n l))).
Proof.
  intros Hrun.
  apply discoverPrograms_effect in Hrun as (Hperiods & Httl & Hothers & _).
  split; [exact Hperiods|]. split; [exact Hothers|]. split.
  - intros p E' n l Hp. rewrite !getCachedPrograms_run. cbn [self reads].
    rewrite (Hothers p Hp), Httl.
    destruct (Discovery.programsCache (self d) !! p); [|reflexivity].
    destruct (_ <? _); reflexivity.
  - intros E' n l. rewrite !getCachedPeriods_run. cbn [self reads].
    rewrite Hperiods, Httl.
    destruct (Discovery.periodsCache (self d)); [|reflexivity].
    destruct (_ <? _); reflexivity.
Qed.

Lemma discoverPrograms_frame_example :
  let E := env_with 1000 (Response (JStr "<html>")) in
  let d := service_with 3600000 in
  let d' := snd (run (Discovery.discoverPrograms
                        (normalizer := constant_normalizer "2024/2025" "autumn")
                        26) E d) in
  Discovery.periodsCache (self d') = Discovery.periodsCache (self d)
  /\ Discovery.programsCache (self d') !! 25 = Some (mkEntry [] 0)
  /\ is_Some (Discovery.programsCache (self d') !! 26).
Proof.
  cbv zeta.
  destruct (@discoverPrograms_frame
              (constant_normalizer "2024/2025" "autumn")
              (env_with 1000 (Response (JStr "<html>")))
              (service_with 3600000)
              (snd (run (Discovery.discoverPrograms
                           (normalizer := constant_normalizer "2024/2025" "autumn")
                           26)
                      (env_with 1000 (Response (JStr "<html>")))
                      (service_with 3600000)))
              26
              [Discovery.mkStudyProgram 1 "Datorsistemas (RDBD0)" "RDBD0"
                 "Datorsistemas (RDBD0)" ("DITF", "33000") ["a"]])
    as (Hperiods & Hothers & _); [reflexivity|].
  split; [exact Hperiods|]. split.
  - rewrite (Hothers 25); [reflexivity | lia].
  - eexists. reflexivity.
Defined.

(** ** The date range of a period *)

Section DateRange.
Context {normalizer : LabelNormalizer} {zone : TimeZone}.

Lemma defaultDates_run E (s : State Discovery.DiscoveryService)
    academicYear season :
  run (Discovery.defaultDates academicYear season) E s =
  let s1 := match Discovery.yearMatch academicYear with
            | Some _ => s
            | None => tick s
            end in
  let startYear := fst (academic_years E (reads s) academicYear) in
  let endYear := snd (academic_years E (reads s) academicYear) in
  if String.eqb season "autumn" then
    (Normal (new_Date_ymd startYear 8 1, new_Date_ymd endYear 0 31), s1)
  else if String.eqb season "spring" then
    (Normal (new_Date_ymd endYear 1 1, new_Date_ymd endYear 5 30), s1)
  else if String.eqb season "summer" then
    (Normal (new_Date_ymd endYear 6 1, new_Date_ymd endYear 7 31), s1)
  else
    (Normal (local (clock E (reads s1)), local (clock E (S (reads s1)))),
     tick (tick s1)).
Proof.
  unfold Discovery.defaultDates, academic_years.
  destruct (Discovery.yearMatch academicYear) as [[y1 y2]|]; cbv zeta;
    repeat (destruct (String.eqb season _); [reflexivity|]); reflexivity.
Qed.

Lemma transformToStudyPeriod_default E (s : State Discovery.DiscoveryService)
    semester metadata :
  lacks_authoritative_dates semester metadata ->
  run (Discovery.transformToStudyPeriod semester metadata) E s =
  match run (Discovery.defaultDates
               (parseAcademicYear (Discovery.semester_name semester))
               (parseSeason (Discovery.semester_name semester))) E s with
  | (Normal dates, s') =>
      (Normal
         {| Discovery.id := Discovery.semester_id semester;
            Discovery.name := Discovery.semester_name semester;
            Discovery.code :=
              parsePeriodCode (Discovery.semester_name semester);
            Discovery.academicYear :=
              parseAcademicYear (Discovery.semester_name semester);
            Discovery.season := parseSeason (Discovery.semester_name semester);
            Discovery.startDate := fst dates;
            Discovery.endDate := snd dates;
            Discovery.isSelected := Discovery.semester_isSelected semester |},
       s')
  | (Throw e, s') => (Throw e, s')
  end.
Proof.
  unfold lacks_authoritative_dates, Discovery.transformToStudyPeriod.
  intros Hlacks. rewrite run_bind.
  destruct (Discovery.semester_isSelected semester),
    (Discovery.metadata_startDate metadata),
    (Discovery.metadata_endDate metadata);
    try reflexivity.
  destruct Hlacks as [?|[?|?]]; discriminate.
Qed.

Lemma transformToStudyPeriod_selected E (s : State Discovery.DiscoveryService)
    semester metadata startDate endDate :
  Discovery.semester_isSelected semester = true ->
  Discovery.metadata_startDate metadata = Some startDate ->
  Discovery.metadata_endDate metadata = Some endDate ->
  run (Discovery.transformToStudyPeriod semester metadata) E s =
  (Normal
     {| Discovery.id := Discovery.semester_id semester;
        Discovery.name := Discovery.semester_name semester;
        Discovery.code := parsePeriodCode (Discovery.semester_name semester);
        Discovery.academicYear :=
          parseAcademicYear (Discovery.semester_name semester);
        Discovery.season := parseSeason (Discovery.semester_name semester);
        Discovery.startDate := startDate;
        Discovery.endDate := endDate;
        Discovery.isSelected := true |},
   s).
Proof.
  unfold Discovery.transformToStudyPeriod. intros -> -> ->. reflexivity.
Qed.

End DateRange.

Lemma new_Date_ymd_calendar {zone : TimeZone} y m d :
  100 <= y -> new_Date_ymd y m d = calendar_date y (m + 1) d.
Proof.
  intros Hy. unfold new_Date_ymd, calendar_date.
  destruct (Z.leb_spec y 99); [lia|]. rewrite andb_false_r. cbv zeta.
  by replace (m + 1 - 1) with m by lia.
Qed.

(** C5. For a selected period whose metadata has both dates, the start
    and the end of the period are those two dates, whatever the label
    functions make of the name, and the clock is not read. *)
Theorem selected_dates_verbatim {normalizer : LabelNormalizer} {zone : TimeZone}
    (E : Env) (s : State Discovery.DiscoveryService)
    (semester : Discovery.Semester) (metadata : Discovery.SemesterMetadata)
    (authoritativeStart authoritativeEnd : Date) :
  Discovery.semester_isSelected semester = true ->
  Discovery.metadata_startDate metadata = Some authoritativeStart ->
  Discovery.metadata_endDate metadata = Some authoritativeEnd ->
  exists period,
    run (Discovery.transformToStudyPeriod semester metadata) E s
      = (Normal period, s)
    /\ Discovery.startDate period = authoritativeStart
    /\ Discovery.endDate period = authoritativeEnd.
Proof.
  intros Hsel Hstart Hend. eexists. split.
  - by apply transformToStudyPeriod_selected.
  - split; reflexivity.
Qed.

Lemma selected_dates_verbatim_example :
  exists period,
    run (Discovery.transformToStudyPeriod
           (normalizer := constant_normalizer "not a year" "summer") (zone := utc)
           (Discovery.mkSemester 25 "2024/2025 Rudens" true)
           (Discovery.mkMetadata (Some (calendar_date (zone := utc) 2024 9 1))
                                 (Some (calendar_date (zone := utc) 2025 1 31))))
        (env_with 1000 (Response JNull)) (new_service 3600000)
      = (Normal period, new_service 3600000)
    /\ Discovery.startDate period = calendar_date (zone := utc) 2024 9 1
    /\ Discovery.endDate period = calendar_date (zone := utc) 2025 1 31.
Proof.
  apply (@selected_dates_verbatim (constant_normalizer "not a year" "summer") utc);
    reflexivity.
Defined.

(** The claim of C4 taken literally fails for a year below 100: the date
    constructor reads a year from 0 to 99 as 1900 + year, so the academic
    year ["0050/0051"] in autumn gives 1950-09-01 through 1951-01-31 and
    not 0050-09-01 through 0051-01-31. *)
Lemma defaultDates_year_below_100 :
  let r := run (Discovery.transformToStudyPeriod
                  (normalizer := constant_normalizer "0050/0051" "autumn") (zone := utc)
                  (Discovery.mkSemester 1 "0050/0051 Rudens" false)
                  (Discovery.mkMetadata None None))
               (env_with 1000 (Response JNull)) (new_service 3600000) in
  academic_years (env_with 1000 (Response JNull)) 0 "0050/0051" = (50, 51)
  /\ (exists period,
        fst r = Normal period
        /\ Discovery.startDate period = calendar_date (zone := utc) 1950 9 1
        /\ Discovery.endDate period = calendar_date (zone := utc) 1951 1 31
        /\ Discovery.startDate period <> calendar_date (zone := utc) 50 9 1
        /\ Discovery.endDate period <> calendar_date (zone := utc) 51 1 31).
Proof.
  cbv zeta. split; [reflexivity|]. eexists.
  split; [reflexivity|]. repeat split; discriminate.
Qed.

(** C4, as the code has it. A period that is not selected, or whose
    metadata lacks a date, gets its range from the season and from the two
    years of its academic-year string (the year of the clock and the next
    when the string has not the form [YYYY/YYYY]). With years of at least
    100: autumn runs from startYear-09-01 to endYear-01-31, spring from
    endYear-02-01 to endYear-06-30, summer from endYear-07-01 to
    endYear-08-31. Any other season gives, for the start and for the end,
    the date the clock shows when each is made. *)
Theorem default_date_range {normalizer : LabelNormalizer} {zone : TimeZone}
    (E : Env) (s : State Discovery.DiscoveryService)
    (semester : Discovery.Semester) (metadata : Discovery.SemesterMetadata) :
  lacks_authoritative_dates semester metadata ->
  let academicYear := parseAcademicYear (Discovery.semester_name semester) in
  let season := parseSeason (Discovery.semester_name semester) in
  let startYear := fst (academic_years E (reads s) academicYear) in
  let endYear := snd (academic_years E (reads s) academicYear) in
  let first_read :=
    match Discovery.yearMatch academicYear with
    | Some _ => reads s
    | None => S (reads s)
    end in
  exists period s',
    run (Discovery.transformToStudyPeriod semester metadata) E s
      = (Normal period, s')
    /\ (season = "autumn" -> 100 <= startYear -> 100 <= endYear ->
          Discovery.startDate period = calendar_date startYear 9 1
          /\ Discovery.endDate period = calendar_date endYear 1 31)
    /\ (season = "spring" -> 100 <= endYear ->
          Discovery.startDate period = calendar_date endYear 2 1
          /\ Discovery.endDate period = calendar_date endYear 6 30)
    /\ (season = "summer" -> 100 <= endYear ->
          Discovery.startDate period = calendar_date endYear 7 1
          /\ Discovery.endDate period = calendar_date endYear 8 31)
    /\ (season <> "autumn" -> season <> "spring" -> season <> "summer" ->
          Discovery.startDate period = local (clock E first_read)
          /\ Discovery.endDate period = local (clock E (S first_read))).
Proof.
  intros Hlacks. cbv zeta.
  rewrite (transformToStudyPeriod_default E s semester metadata Hlacks).
  rewrite defaultDates_run. cbv zeta.
  set (season := parseSeason (Discovery.semester_name semester)).
  set (academicYear := parseAcademicYear (Discovery.semester_name semester)).
  destruct (String.eqb_spec season "autumn") as [Hautumn|Hautumn];
    [|destruct (String.eqb_spec season "spring") as [Hspring|Hspring];
      [|destruct (String.eqb_spec season "summer") as [Hsummer|Hsummer]]].
  - do 2 eexists. split; [reflexivity|]. cbn [Discovery.startDate Discovery.endDate fst snd].
    repeat split; intros; try (rewrite Hautumn in *; discriminate).
    + by apply new_Date_ymd_calendar.
    + by apply new_Date_ymd_calendar.
    + contradiction.
    + contradiction.
  - do 2 eexists. split; [reflexivity|]. cbn [Discovery.startDate Discovery.endDate fst snd].
    repeat split; intros; try (rewrite Hspring in *; discriminate);
      try contradiction; by apply new_Date_ymd_calendar.
  - do 2 eexists. split; [reflexivity|]. cbn [Discovery.startDate Discovery.endDate fst snd].
    repeat split; intros; try (rewrite Hsummer in *; discriminate);
      try contradiction; by apply new_Date_ymd_calendar.
  - do 2 eexists. split; [reflexivity|]. cbn [Discovery.startDate Discovery.endDate fst snd].
    repeat split; intros; try contradiction;
      destruct (Discovery.yearMatch academicYear); reflexivity.
Qed.

Lemma default_date_range_example :
  exists period s',
    run (Discovery.transformToStudyPeriod
           (normalizer := constant_normalizer "2024/2025" "spring") (zone := utc)
           (Discovery.mkSemester 26 "2024/2025 Pavasaris" false)
           (Discovery.mkMetadata None None))
        (env_with 1000 (Response JNull)) (new_service 3600000)
      = (Normal period, s')
    /\ Discovery.startDate period = calendar_date (zone := utc) 2025 2 1
    /\ Discovery.endDate period = calendar_date (zone := utc) 2025 6 30.
Proof.
  destruct (@default_date_range (constant_normalizer "2024/2025" "spring") utc
              (env_with 1000 (Response JNull)) (new_service 3600000)
              (Discovery.mkSemester 26 "2024/2025 Pavasaris" false)
              (Discovery.mkMetadata None None))
    as (period & s' & Hrun & _ & Hspring & _); [by left|].
  exists period, s'. split; [exact Hrun|].
  apply Hspring; [reflexivity | apply Z.leb_le; reflexivity].
Defined.

(** The claim of C3 taken literally fails on both paths. The dates of the
    metadata are taken as they come: a selected period whose metadata
    gives 2025-01-31 as its start and 2024-09-01 as its end starts after
    it ends. *)
Lemma transformToStudyPeriod_reversed_metadata :
  let r := run (Discovery.transformToStudyPeriod
                  (normalizer := constant_normalizer "2024/2025" "autumn") (zone := utc)
                  (Discovery.mkSemester 25 "2024/2025 Rudens" true)
                  (Discovery.mkMetadata (Some (calendar_date (zone := utc) 2025 1 31))
                                        (Some (calendar_date (zone := utc) 2024 9 1))))
               (env_with 1000 (Response JNull)) (new_service 3600000) in
  exists period,
    fst r = Normal period
    /\ Date_leb (Discovery.startDate period) (Discovery.endDate period) = false.
Proof. cbv zeta. eexists. split; reflexivity. Qed.

(** The default path too: an autumn whose academic-year string repeats
    one year starts on 1 September and ends on 31 January of that year. *)
Lemma defaultDates_autumn_same_year :
  let r := run (Discovery.transformToStudyPeriod
                  (normalizer := constant_normalizer "2024/2024" "autumn") (zone := utc)
                  (Discovery.mkSemester 25 "2024/2024 Rudens" false)
                  (Discovery.mkMetadata None None))
               (env_with 1000 (Response JNull)) (new_service 3600000) in
  exists period,
    fst r = Normal period
    /\ Discovery.startDate period = calendar_date (zone := utc) 2024 9 1
    /\ Discovery.endDate period = calendar_date (zone := utc) 2024 1 31
    /\ Date_leb (Discovery.startDate period) (Discovery.endDate period) = false.
Proof. cbv zeta. eexists. repeat split. Qed.

(** The time value of a date, on two days of the examples: midnight UTC
    of 1 September 2024 and of 31 January 2025. *)
Example timeValue_samples :
  timeValue (calendar_date (zone := utc) 2024 9 1) = 1725148800000
  /\ timeValue (calendar_date (zone := utc) 2025 1 31) = 1738281600000.
Proof. split; reflexivity. Qed.

(** The first day of a year is at least 360 days after the first day of
    any earlier year. *)
Lemma DayFromYear_later a b : a < b -> DayFromYear a + 360 <= DayFromYear b.
Proof.
  intros Hab. unfold DayFromYear.
  Z.to_euclidean_division_equations. lia.
Qed.

(** Two local midnights at least two days apart by the calendar are in
    the same order by time value, since the offsets of local time are
    below one day in size. *)
Lemma midnights_ordered (a b : Date) :
  msOfDay a = 0 -> msOfDay b = 0 ->
  -1440 < timezoneOffset a < 1440 -> -1440 < timezoneOffset b < 1440 ->
  MakeDay (fullYear a) (monthIndex a) (dayOfMonth a) + 2
    <= MakeDay (fullYear b) (monthIndex b) (dayOfMonth b) ->
  Date_leb a b = true.
Proof.
  intros Ha Hb Hoa Hob Hdays. unfold Date_leb, timeValue.
  rewrite Ha, Hb. unfold msPerDay, msPerMinute. apply Z.leb_le. lia.
Qed.

(** C3, as the code has it. The start of a period is not after its end
    when the period is selected and the two dates of the metadata are in
    this order, or when it takes the default range and its season is
    spring or summer, or autumn with [100 <= startYear < endYear], or an
    unrecognised season with a clock that does not run backwards between
    the two readings that give the start and the end. *)
Theorem start_not_after_end {normalizer : LabelNormalizer} {zone : TimeZone}
    (E : Env) (s s' : State Discovery.DiscoveryService)
    (semester : Discovery.Semester) (metadata : Discovery.SemesterMetadata)
    (period : Discovery.StudyPeriod) :
  run (Discovery.transformToStudyPeriod semester metadata) E s
    = (Normal period, s') ->
  match Discovery.semester_isSelected semester,
        Discovery.metadata_startDate metadata,
        Discovery.metadata_endDate metadata with
  | true, Some authoritativeStart, Some authoritativeEnd =>
      Date_leb authoritativeStart authoritativeEnd = true
  | _, _, _ =>
      let season := Discovery.season period in
      let years := academic_years E (reads s) (Discovery.academicYear period) in
      let first_read :=
        match Discovery.yearMatch (Discovery.academicYear period) with
        | Some _ => reads s
        | None => S (reads s)
        end in
      (season = "autumn" -> 100 <= fst years < snd years)
      /\ (season <> "autumn" -> season <> "spring" -> season <> "summer" ->
          epoch (clock E first_read) <= epoch (clock E (S first_read)))
  end ->
  Date_leb (Discovery.startDate period) (Discovery.endDate period) = true.
Proof.
  intros Hrun Hinput.
  assert (lacks_authoritative_dates semester metadata ->
          (Discovery.season period = "autumn" ->
           100 <= fst (academic_years E (reads s) (Discovery.academicYear period))
               < snd (academic_years E (reads s) (Discovery.academicYear period))) ->
          (Discovery.season period <> "autumn" ->
           Discovery.season period <> "spring" ->
           Discovery.season period <> "summer" ->
           epoch (clock E
                    match Discovery.yearMatch (Discovery.academicYear period) with
                    | Some _ => reads s
                    | None => S (reads s)
                    end)
           <= epoch (clock E
                       (S match Discovery.yearMatch (Discovery.academicYear period) with
                          | Some _ => reads s
                          | None => S (reads s)
                          end))) ->
          Date_leb (Discovery.startDate period) (Discovery.endDate period) = true)
    as Hdefault.
  { intros Hlacks Hautumn Hother. revert Hrun.
    rewrite (transformToStudyPeriod_default E s semester metadata Hlacks).
    rewrite defaultDates_run. cbv zeta.
    set (season := parseSeason (Discovery.semester_name semester)).
    set (academicYear := parseAcademicYear (Discovery.semester_name semester)).
    destruct (String.eqb_spec season "autumn") as [Hseason|Hna];
      [|destruct (String.eqb_spec season "spring") as [Hspring|Hnsp];
        [|destruct (String.eqb_spec season "summer") as [Hsummer|Hnsu]]];
      intros [= <- _]; cbn [Discovery.startDate Discovery.endDate fst snd
                             Discovery.season Discovery.academicYear] in *.
    - specialize (Hautumn Hseason). fold academicYear in Hautumn.
      rewrite !new_Date_ymd_calendar by lia.
      apply midnights_ordered; try reflexivity;
        try apply timezoneOffsetAt_bounded.
      cbn [calendar_date fullYear monthIndex dayOfMonth].
      pose proof (DayFromYear_later _ _ (proj2 Hautumn)) as Hyears.
      unfold MakeDay. change (8 + 1 - 1) with 8. change (0 + 1 - 1) with 0.
      cbn [DaysBeforeMonth]. destruct (InLeapYear _); lia.
    - apply midnights_ordered; try reflexivity;
        try apply timezoneOffsetAt_bounded.
      cbn [new_Date_ymd fullYear monthIndex dayOfMonth].
      unfold MakeDay. cbn [DaysBeforeMonth]. destruct (InLeapYear _); lia.
    - apply midnights_ordered; try reflexivity;
        try apply timezoneOffsetAt_bounded.
      cbn [new_Date_ymd fullYear monthIndex dayOfMonth].
      unfold MakeDay. cbn [DaysBeforeMonth]. destruct (InLeapYear _); lia.
    - fold season academicYear in Hother.
      specialize (Hother Hna Hnsp Hnsu).
      unfold Date_leb. apply Z.leb_le. rewrite <- !clock_consistent.
      destruct (Discovery.yearMatch academicYear); exact Hother. }
  destruct (Discovery.semester_isSelected semester) eqn:Hsel;
    [destruct (Discovery.metadata_startDate metadata) as [a|] eqn:Hstart;
     [destruct (Discovery.metadata_endDate metadata) as [b|] eqn:Hend|]|].
  - rewrite (transformToStudyPeriod_selected E s semester metadata a b Hsel
               Hstart Hend) in Hrun.
    by injection Hrun as <- _.
  - apply Hdefault; [right; by right | apply Hinput | apply Hinput].
  - apply Hdefault; [right; by left | apply Hinput | apply Hinput].
  - apply Hdefault; [by left | apply Hinput | apply Hinput].
Qed.

Lemma start_not_after_end_example :
  let E := env_with 1000 (Response JNull) in
  let r := run (Discovery.transformToStudyPeriod
                  (normalizer := constant_normalizer "2024/2025" "autumn")
                  (zone := utc)
                  (Discovery.mkSemester 25 "2024/2025 Rudens" false)
                  (Discovery.mkMetadata None None))
               E (new_service 3600000) in
  exists period,
    fst r = Normal period
    /\ Discovery.startDate period = calendar_date (zone := utc) 2024 9 1
    /\ Discovery.endDate period = calendar_date (zone := utc) 2025 1 31
    /\ Date_leb (Discovery.startDate period) (Discovery.endDate period) = true.
Proof.
  cbv zeta. eexists. split; [reflexivity|]. split; [reflexivity|].
  split; [reflexivity|].
  apply (@start_not_after_end (constant_normalizer "2024/2025" "autumn") utc
           (env_with 1000 (Response JNull)) (new_service 3600000)
           (new_service 3600000)
           (Discovery.mkSemester 25 "2024/2025 Rudens" false)
           (Discovery.mkMetadata None None)).
  - reflexivity.
  - cbn. split.
    + intros _. split; [apply Z.leb_le | apply Z.ltb_lt]; reflexivity.
    + intros Hseason. by destruct Hseason.
Defined.

(** ** The academic-year pattern *)

(** X19. [yearMatch] is the pattern [^(\d{4})\/(\d{4})$]: it matches exactly
    the strings made of four digits, a slash and four digits, and
    captures the two groups of digits. *)
Lemma yearMatch_spec s y1 y2 :
  Discovery.yearMatch s = Some (y1, y2) <->
  s = y1 +:+ "/" +:+ y2
  /\ String.length y1 = 4%nat /\ String.length y2 = 4%nat
  /\ forallb Discovery.is_digit (list_ascii_of_string y1) = true
  /\ forallb Discovery.is_digit (list_ascii_of_string y2) = true.
Proof.
  split.
  - unfold Discovery.yearMatch.
    do 9 (destruct s as [|? s]; [discriminate|]).
    destruct s; [|discriminate].
    destruct (_ && _) eqn:Hall; [|discriminate].
    intros [= <- <-].
    rewrite !andb_true_iff, Ascii.eqb_eq in Hall.
    destruct Hall as ((((((((Ha & Hb) & Hc) & Hd) & ->) & He) & Hf) & Hg) & Hh).
    cbn [list_ascii_of_string forallb String.length].
    rewrite Ha, Hb, Hc, Hd, He, Hf, Hg, Hh. repeat split.
  - intros (-> & Hlen1 & Hlen2 & Hd1 & Hd2).
    do 4 (destruct y1 as [|? y1]; [discriminate|]).
    destruct y1; [|discriminate].
    do 4 (destruct y2 as [|? y2]; [discriminate|]).
    destruct y2; [|discriminate].
    cbn [list_ascii_of_string forallb] in Hd1, Hd2.
    rewrite !andb_true_iff in Hd1, Hd2.
    destruct Hd1 as (Ha & Hb & Hc & Hd & _), Hd2 as (He & Hf & Hg & Hh & _).
    unfold Discovery.yearMatch. cbv [String.append].
    by rewrite Ha, Hb, Hc, Hd, He, Hf, Hg, Hh.
Qed.

Example yearMatch_2024_2025 :
  Discovery.yearMatch "2024/2025" = Some ("2024", "2025")
  /\ Discovery.parseInt "2024" = 2024
  /\ Discovery.yearMatch "2024-2025" = None
  /\ Discovery.yearMatch "2024/2025 " = None.
Proof. repeat split. Qed.

Example cache_keys :
  events_key (SemesterProgramEventsParams.make (Some 27316) (Some 2025) (Some 3))
    = "events_27316_2025_3"
  /\ subjects_key (Some 27316) = "subjects_27316"
  /\ published_key (Some 27316) = "published_27316"
  /\ groups_key (GroupsByCourseParams.make (Some 1) (Some 25) (Some 333))
     = "groups_1_25_333"
  /\ courses_key (CoursesByProgramParams.make (Some 25) (Some 333))
     = "courses_25_333".
Proof. repeat split. Qed.

(** * Further properties of the two classes *)

(** ** Clearing the live data cache *)

Lemma clearExpiredCache_run E (s : State RTUApiClient) :
  run clearExpiredCache E s =
  (Normal tt,
   mkState
     (set_cache
        (map_fold
           (fun key value remaining =>
              if cacheTimeout (self s)
                 <? epoch (clock E (reads s)) - timestamp value
              then delete key remaining
              else remaining)
           (cache (self s)) (cache (self s)))
        (self s))
     (S (reads s)) (sent s)).
Proof. reflexivity. Qed.

(** The loop of [clearExpiredCache], entry by entry: of the entries that
    were in the map, those the test selects are gone and the others are as
    they were. *)
Lemma delete_loop_lookup (stale : CacheEntry JsValue -> bool)
    (c : gmap string (CacheEntry JsValue)) key :
  map_fold (fun k v remaining => if stale v then delete k remaining else remaining)
           c c !! key
  = match c !! key with
    | Some entry => if stale entry then None else Some entry
    | None => None
    end.
Proof.
  assert (forall visited : gmap string (CacheEntry JsValue),
            map_fold (fun k v remaining =>
                        if stale v then delete k remaining else remaining)
                     c visited !! key
            = match visited !! key with
              | Some entry => if stale entry then None else c !! key
              | None => c !! key
              end) as Hloop.
  { apply (map_fold_weak_ind
             (fun remaining (visited : gmap string (CacheEntry JsValue)) =>
                remaining !! key
                = match visited !! key with
                  | Some entry => if stale entry then None else c !! key
                  | None => c !! key
                  end)).
    - by rewrite lookup_empty.
    - intros k v visited remaining Hfresh IH.
      destruct (decide (k = key)) as [->|Hne].
      + rewrite lookup_insert_eq. rewrite Hfresh in IH.
        destruct (stale v); [apply lookup_delete_eq | exact IH].
      + rewrite lookup_insert_ne by done. rewrite <- IH.
        destruct (stale v); [by apply lookup_delete_ne | reflexivity]. }
  rewrite Hloop. destruct (c !! key) as [entry|]; [|reflexivity].
  destruct (stale entry); reflexivity.
Qed.

(** X1. [clearExpiredCache] reads the clock once, sends nothing, and
    removes exactly the entries older than the time-to-live: an entry
    stays, unchanged, iff at most the time-to-live has elapsed since it
    was written. *)
Theorem clearExpiredCache_removes_exactly_the_old (E : Env)
    (s : State RTUApiClient) :
  exists s',
    run clearExpiredCache E s = (Normal tt, s')
    /\ sent s' = sent s
    /\ reads s' = S (reads s)
    /\ cacheTimeout (self s') = cacheTimeout (self s)
    /\ forall key entry,
         cache (self s') !! key = Some entry
         <-> cache (self s) !! key = Some entry
             /\ epoch (clock E (reads s)) - timestamp entry
                <= cacheTimeout (self s).
Proof.
  eexists. split; [apply clearExpiredCache_run|].
  cbn [self reads sent set_cache cache cacheTimeout].
  split; [reflexivity|]. split; [reflexivity|]. split; [reflexivity|].
  intros key entry.
  rewrite (delete_loop_lookup
             (fun value => cacheTimeout (self s)
                           <? epoch (clock E (reads s)) - timestamp value)).
  destruct (cache (self s) !! key) as [e|]; [|by split; [|intros [? _]]].
  destruct (Z.ltb_spec (cacheTimeout (self s))
                       (epoch (clock E (reads s)) - timestamp e)).
  - split; [discriminate|]. intros [[= ->] ?]. lia.
  - split; [intros [= ->]; by split | by intros [? _]].
Qed.

(** The result of a call, by what its look-up returns and what the
    network replies. *)
Lemma call_result E (s : State RTUApiClient) op :
  fst (run (call op) E s) =
  match first_rejected op with
  | Some param => Throw (Error ("Invalid " +:+ param))
  | None =>
      match fst (run (getFromCache (key_of op)) E s) with
      | Normal cached =>
          if hit_test op cached then Normal cached
          else match network E (length (sent s)) (request_of op) with
               | Response d => decode op d
               | Rejects e => Throw (translate e)
               end
      | Throw e => Throw e
      end
  end.
Proof.
  rewrite call_run. destruct (first_rejected op); [reflexivity|].
  rewrite after_validation_run.
  destruct (lookup_effect E s (key_of op)) as (cached & s1 & -> & -> & _).
  cbn [fst]. destruct (hit_test op cached); [reflexivity|]. cbn zeta.
  destruct (network E _ _) as [d|e]; [|reflexivity].
  destruct (decode op d); reflexivity.
Qed.

(** X2. With a clock that does not run backwards, [clearExpiredCache] is
    invisible to the calls that follow: a look-up and any operation made
    right after it return what they would have returned without it. *)
Theorem clearExpiredCache_is_invisible (E : Env) (s : State RTUApiClient)
    (op : Operation) :
  epoch (clock E (reads s)) <= epoch (clock E (S (reads s))) ->
  let cleared := snd (run clearExpiredCache E s) in
  fst (run (getFromCache (key_of op)) E cleared)
    = fst (run (getFromCache (key_of op)) E (tick s))
  /\ fst (run (call op) E cleared) = fst (run (call op) E (tick s)).
Proof.
  intros Hclock cleared.
  assert (fst (run (getFromCache (key_of op)) E cleared)
          = fst (run (getFromCache (key_of op)) E (tick s))) as Hlookup.
  { subst cleared. rewrite clearExpiredCache_run. cbn [snd].
    rewrite !getFromCache_run.
    cbn [self reads sent set_cache cache cacheTimeout tick].
    rewrite (delete_loop_lookup
               (fun value => cacheTimeout (self s)
                             <? epoch (clock E (reads s)) - timestamp value)).
    destruct (cache (self s) !! key_of op) as [entry|]; [|reflexivity].
    destruct (Z.ltb_spec (cacheTimeout (self s))
                         (epoch (clock E (reads s)) - timestamp entry)).
    - destruct (Z.ltb_spec (epoch (clock E (S (reads s))) - timestamp entry)
                           (cacheTimeout (self s))); [lia | reflexivity].
    - destruct (_ <? _); reflexivity. }
  split; [exact Hlookup|].
  rewrite !call_result, Hlookup. reflexivity.
Qed.

Lemma clearExpiredCache_is_invisible_example :
  let E := env_with 300001 (Response (JArr [JStr "b"])) in
  let s := client_with "subjects_7" (JArr [JStr "a"]) in
  cache (self (snd (run clearExpiredCache E s))) !! "subjects_7" = None
  /\ fst (run (fetchSemesterProgramSubjects (Some 7)) E
               (snd (run clearExpiredCache E s)))
     = fst (run (fetchSemesterProgramSubjects (Some 7)) E (tick s)).
Proof.
  cbv zeta. split; [reflexivity|].
  apply (clearExpiredCache_is_invisible
           (env_with 300001 (Response (JArr [JStr "b"])))
           (client_with "subjects_7" (JArr [JStr "a"]))
           (FetchSemesterProgramSubjects (Some 7))).
  first [apply Z.leb_le; reflexivity | apply Z.ltb_lt; reflexivity].
Defined.

(** X3. After [clearCache] every call with acceptable parameters goes to
    the network, whatever the cache held before: it sends exactly its own
    request. *)
Theorem clearCache_forces_refetch (E E' : Env) (s : State RTUApiClient)
    (op : Operation) :
  first_rejected op = None ->
  let cleared := snd (run clearCache E s) in
  cache (self cleared) = ∅
  /\ cacheTimeout (self cleared) = cacheTimeout (self s)
  /\ sent (snd (run (call op) E' cleared)) = (sent s ++ [request_of op])%list.
Proof.
  intros Hvalid cleared. split; [reflexivity|]. split; [reflexivity|].
  destruct (run (call op) E' cleared) as [r s'] eqn:Hrun.
  destruct (call_miss E' cleared s' op r Hvalid) as [Hsent _];
    [|exact Hrun|exact Hsent].
  assert (cache (self cleared) = ∅) as Hempty by reflexivity.
  unfold fresh. by rewrite Hempty, lookup_empty.
Qed.

Lemma clearCache_forces_refetch_example :
  let E := env_with 1000 (Response (JArr [])) in
  let s := client_with "subjects_7" (JArr [JStr "a"]) in
  fst (run (fetchSemesterProgramSubjects (Some 7)) E s)
    = Normal (JArr [JStr "a"])
  /\ sent (snd (run (fetchSemesterProgramSubjects (Some 7)) E
                    (snd (run clearCache E s))))
     = [request_of (FetchSemesterProgramSubjects (Some 7))].
Proof.
  cbv zeta. split; [reflexivity|].
  apply (clearCache_forces_refetch (env_with 1000 (Response (JArr [])))
           (env_with 1000 (Response (JArr [])))
           (client_with "subjects_7" (JArr [JStr "a"]))
           (FetchSemesterProgramSubjects (Some 7))).
  reflexivity.
Defined.

(** ** Writing and reading back *)

(** X4. [setCache] followed by [getFromCache] of the same key: the value
    written is the value read while less than the time-to-live has elapsed
    between the two readings of the clock, whatever entry the key had
    before (the last write wins); from then on the read is a miss. The
    write touches no other key. *)
Theorem setCache_getFromCache (E : Env) (s : State RTUApiClient)
    (key : string) (d : JsValue) :
  let written := snd (run (setCache key d) E s) in
  let elapsed := epoch (clock E (S (reads s))) - epoch (clock E (reads s)) in
  (elapsed < cacheTimeout (self s) ->
     fst (run (getFromCache key) E written) = Normal d)
  /\ (cacheTimeout (self s) <= elapsed ->
        fst (run (getFromCache key) E written) = Normal JUndefined)
  /\ (forall other, other <> key ->
        cache (self written) !! other = cache (self s) !! other).
Proof.
  cbv zeta. rewrite setCache_run. cbn [snd]. rewrite getFromCache_run.
  cbn [self reads sent set_cache cache cacheTimeout].
  rewrite lookup_insert_eq. cbn [timestamp data].
  split; [|split].
  - intros Hlt.
    destruct (Z.ltb_spec (epoch (clock E (S (reads s))) - epoch (clock E (reads s)))
                         (cacheTimeout (self s))); [reflexivity | lia].
  - intros Hge.
    destruct (Z.ltb_spec (epoch (clock E (S (reads s))) - epoch (clock E (reads s)))
                         (cacheTimeout (self s))); [lia | reflexivity].
  - intros other Hne. by apply lookup_insert_ne.
Qed.

Lemma setCache_getFromCache_example :
  fst (run (getFromCache "subjects_7")
           (env_with 5 (Response JNull))
           (snd (run (setCache "subjects_7" (JArr [JStr "new"]))
                     (env_with 5 (Response JNull))
                     (client_with "subjects_7" (JArr [JStr "old"])))))
  = Normal (JArr [JStr "new"]).
Proof.
  apply (setCache_getFromCache (env_with 5 (Response JNull))
           (client_with "subjects_7" (JArr [JStr "old"])) "subjects_7"
           (JArr [JStr "new"])).
  first [apply Z.leb_le; reflexivity | apply Z.ltb_lt; reflexivity].
Defined.

(** ** What a call changes, sends and throws *)

(** X5. A call that finds no fresh entry, with acceptable parameters and a
    response that the operation accepts, returns the decoded result and
    changes the cache by one insertion: the entry of its key now holds the
    result, stamped with the reading of the clock made after the response
    arrived; every other entry is as it was. *)
Theorem successful_miss_inserts_one_entry (E : Env) (s : State RTUApiClient)
    (op : Operation) (body v : JsValue) :
  first_rejected op = None ->
  fresh E s (key_of op) = false ->
  network E (length (sent s)) (request_of op) = Response body ->
  decode op body = Normal v ->
  exists s',
    run (call op) E s = (Normal v, s')
    /\ cacheTimeout (self s') = cacheTimeout (self s)
    /\ cache (self s')
       = <[key_of op := mkEntry v (epoch (clock E (Nat.pred (reads s'))))]>
           (cache (self s)).
Proof.
  intros Hvalid Hmiss Hnet Hdecode.
  rewrite call_run, Hvalid, after_validation_run.
  destruct (lookup_miss E s _ Hmiss) as (s1 & -> & Hsent & Httl & Hcache).
  rewrite hit_test_undefined. cbn zeta. rewrite Hsent, Hnet, Hdecode.
  rewrite setCache_run. cbn [snd].
  eexists. split; [reflexivity|].
  cbn [self reads sent set_cache cache cacheTimeout log_request Nat.pred].
  split; [exact Httl|]. rewrite Hcache. apply insert_delete_eq.
Qed.

Lemma successful_miss_inserts_one_entry_example :
  exists s',
    run (findCoursesByProgram (CoursesByProgramParams.make (Some 25) (Some 333)))
        (env_with 1000 (Response (JStr "<html>"))) new_client
      = (Normal (JArr []), s')
    /\ cacheTimeout (self s') = 300000
    /\ cache (self s') = <[ "courses_25_333" := mkEntry (JArr []) 1000 ]> ∅.
Proof.
  apply (successful_miss_inserts_one_entry
           (env_with 1000 (Response (JStr "<html>"))) new_client
           (FindCoursesByProgram (CoursesByProgramParams.make (Some 25) (Some 333)))
           (JStr "<html>") (JArr []));
    reflexivity.
Defined.

(** X6. Every error a live data call throws is of one of four kinds: the
    validation error naming the first unacceptable parameter (nothing sent);
    ['Invalid response data'] for a [null] or [undefined] body of a
    list-returning operation; ['API request failed: <message>'] for a
    rejection by axios; or the transport's own error when that is not an
    axios error. In particular no axios error ever reaches the caller. *)
Theorem thrown_errors (E : Env) (s s' : State RTUApiClient)
    (op : Operation) (e : JsError) :
  run (call op) E s = (Throw e, s') ->
  isAxiosError e = false
  /\ ((exists param,
         first_rejected op = Some param
         /\ e = Error ("Invalid " +:+ param) /\ s' = s)
      \/ (exists body,
            network E (length (sent s)) (request_of op) = Response body
            /\ returns_list op = true /\ eq_null body = true
            /\ e = Error "Invalid response data")
      \/ (exists message,
            network E (length (sent s)) (request_of op)
              = Rejects (AxiosError message)
            /\ e = Error ("API request failed: " +:+ message))
      \/ (network E (length (sent s)) (request_of op) = Rejects e)).
Proof.
  rewrite call_run. destruct (first_rejected op) as [param|] eqn:Hrej.
  - intros [= <- <-]. split; [reflexivity|]. left. by exists param.
  - rewrite after_validation_run.
    destruct (lookup_effect E s (key_of op)) as (cached & s1 & -> & -> & _).
    destruct (hit_test op cached); [discriminate|]. cbn zeta.
    destruct (network E _ _) as [body|e0] eqn:Hnet.
    + unfold decode. destruct (returns_list op) eqn:Hlist; [|discriminate].
      destruct (eq_null body) eqn:Hnull; [|discriminate].
      intros [= <- _]. split; [reflexivity|]. right. left. by exists body.
    + intros [= <- _]. unfold translate.
      destruct e0 as [m|m|m c|v|m]; cbn; split; try reflexivity.
      * by do 3 right.
      * right. right. left. by exists m.
      * by do 3 right.
      * by do 3 right.
      * by do 3 right.
Qed.

Lemma thrown_errors_example :
  isAxiosError
    (Error "API request failed: timeout of 10000ms exceeded") = false
  /\ fst (run (checkSemesterProgramPublished (Some 7))
              (env_with 0 (Rejects (AxiosError "timeout of 10000ms exceeded")))
              new_client)
     = Throw (Error "API request failed: timeout of 10000ms exceeded").
Proof.
  split; [|reflexivity].
  apply (thrown_errors
           (env_with 0 (Rejects (AxiosError "timeout of 10000ms exceeded")))
           new_client
           (snd (run (checkSemesterProgramPublished (Some 7))
                   (env_with 0 (Rejects (AxiosError "timeout of 10000ms exceeded")))
                   new_client))
           (CheckSemesterProgramPublished (Some 7))).
  reflexivity.
Defined.

(** X7. A call sends at most one request, and then its own: there is no
    retry. A call that sends nothing (a validation failure or a hit)
    leaves every field of the client as it was, so a hit does not renew
    the entry it read. *)
Theorem at_most_one_request (E : Env) (s s' : State RTUApiClient)
    (op : Operation) (r : Completion JsValue) :
  run (call op) E s = (r, s') ->
  (sent s' = sent s /\ self s' = self s)
  \/ sent s' = (sent s ++ [request_of op])%list.
Proof.
  rewrite call_run. destruct (first_rejected op).
  - intros [= _ <-]. by left.
  - rewrite after_validation_run, getFromCache_run.
    destruct (cache (self s) !! key_of op) as [entry|].
    + destruct (_ <? _).
      * destruct (hit_test op (data entry)).
        -- intros [= _ <-]. by left.
        -- cbn zeta. destruct (network E _ _) as [d|e];
             [destruct (decode op d)|]; intros [= _ <-]; by right.
      * rewrite hit_test_undefined. cbn zeta.
        destruct (network E _ _) as [d|e];
          [destruct (decode op d)|]; intros [= _ <-]; by right.
    + rewrite hit_test_undefined. cbn zeta.
      destruct (network E _ _) as [d|e];
        [destruct (decode op d)|]; intros [= _ <-]; by right.
Qed.

Lemma at_most_one_request_example :
  let E := env_with 1000 (Response (JArr [])) in
  let s := client_with "subjects_7" (JArr [JStr "a"]) in
  let s' := snd (run (fetchSemesterProgramSubjects (Some 7)) E s) in
  (sent s' = sent s /\ self s' = self s)
  \/ sent s' = [request_of (FetchSemesterProgramSubjects (Some 7))].
Proof.
  cbv zeta.
  apply (at_most_one_request (env_with 1000 (Response (JArr [])))
           (client_with "subjects_7" (JArr [JStr "a"]))
           _ (FetchSemesterProgramSubjects (Some 7))
           (fst (run (fetchSemesterProgramSubjects (Some 7))
                   (env_with 1000 (Response (JArr [])))
                   (client_with "subjects_7" (JArr [JStr "a"]))))).
  reflexivity.
Defined.

(** ** The shape of cached results *)

(** The key of a publication check is the key of no list-returning
    operation: the prefixes differ. *)
Lemma key_of_returns_list op1 op2 :
  key_of op1 = key_of op2 -> returns_list op1 = returns_list op2.
Proof.
  destruct op1, op2; cbn [key_of returns_list]; try reflexivity;
    unfold events_key, subjects_key, published_key, groups_key, courses_key;
    cbv [String.append]; discriminate.
Qed.

Lemma decode_result_shaped op d v : decode op d = Normal v -> result_shaped op v.
Proof.
  unfold decode, result_shaped. destruct (returns_list op).
  - destruct (eq_null d); [discriminate|]. intros [= <-].
    destruct (Array_isArray d) eqn:Harr; [exact Harr | reflexivity].
  - intros [= <-]. eauto.
Qed.

(** X8. The cache keeps the shape of its entries: when every entry under
    the key of a list-returning operation is an array and every entry under
    the key of a publication check is a boolean (as in an empty cache),
    the same holds after any call, and what the call returns, from the
    cache or from the network, is an array for a list-returning operation
    and a boolean for the publication check. *)
Theorem cache_keeps_result_shape (E : Env) (s s' : State RTUApiClient)
    (op : Operation) (r : Completion JsValue) :
  cache_shaped (cache (self s)) ->
  run (call op) E s = (r, s') ->
  cache_shaped (cache (self s'))
  /\ forall v, r = Normal v -> result_shaped op v.
Proof.
  intros Hshaped. rewrite call_run. destruct (first_rejected op).
  { intros [= <- <-]. split; [exact Hshaped | discriminate]. }
  rewrite after_validation_run.
  destruct (lookup_effect E s (key_of op)) as (cached & s1 & -> & _ & _ & Hc).
  assert (cache_shaped (cache (self s1))) as Hshaped1.
  { destruct Hc as [[-> _]|(_ & _ & ->)]; [exact Hshaped|].
    intros op' entry Hk. apply (Hshaped op' entry).
    destruct (decide (key_of op = key_of op')) as [Heq|Hne].
    - rewrite Heq, lookup_delete_eq in Hk. discriminate.
    - by rewrite lookup_delete_ne in Hk. }
  destruct (hit_test op cached) eqn:Hhit.
  - intros [= <- <-]. split; [exact Hshaped1|]. intros v [= <-].
    destruct Hc as [[_ [->|(entry & Hk & <- & _)]]|(-> & _)].
    + by rewrite hit_test_undefined in Hhit.
    + by apply (Hshaped op entry).
    + by rewrite hit_test_undefined in Hhit.
  - cbn zeta. destruct (network E _ _) as [d|e].
    + destruct (decode op d) as [v|e] eqn:Hd.
      * rewrite setCache_run. cbn [snd]. intros [= <- <-].
        cbn [self set_cache cache log_request].
        split; [|intros ? [= <-]; by eapply decode_result_shaped].
        intros op' entry.
        destruct (decide (key_of op = key_of op')) as [Heq|Hne].
        -- rewrite Heq, lookup_insert_eq. intros [= <-]. cbn [data].
           apply decode_result_shaped in Hd. unfold result_shaped in *.
           by rewrite <- (key_of_returns_list op op' Heq).
        -- rewrite lookup_insert_ne by done. apply Hshaped1.
      * intros [= <- <-]. split; [exact Hshaped1 | discriminate].
    + intros [= <- <-]. split; [exact Hshaped1 | discriminate].
Qed.

Lemma cache_keeps_result_shape_example :
  result_shaped (FetchSemesterProgramSubjects (Some 7)) (JArr []).
Proof.
  apply (cache_keeps_result_shape (env_with 0 (Response (JNum 5))) new_client
           (snd (run (fetchSemesterProgramSubjects (Some 7))
                   (env_with 0 (Response (JNum 5))) new_client))
           (FetchSemesterProgramSubjects (Some 7)) (Normal (JArr []))).
  - intros op entry Hk. cbn in Hk. by rewrite lookup_empty in Hk.
  - reflexivity.
  - reflexivity.
Defined.

(** ** Cache keys *)

Lemma pretty_N_go_no_separator x s :
  no_separator s -> no_separator (pretty_N_go x s).
Proof.
  revert s. induction (N.lt_wf_0 x) as [x _ IH]; intros s Hs.
  assert (x = 0 \/ 0 < x)%N as [->|Hpos] by lia.
  - by rewrite pretty_N_go_0.
  - rewrite pretty_N_go_step by done. apply IH; [by apply N.div_lt|].
    constructor; [|exact Hs].
    unfold pretty_N_char. by repeat case_match.
Qed.

Lemma pretty_Z_no_separator (n : Z) : no_separator (pretty n).
Proof.
  assert (forall p : positive, no_separator (pretty p)) as Hpos.
  { intros p. unfold pretty, pretty_positive, pretty, pretty_N.
    case_decide; [by repeat constructor|].
    apply pretty_N_go_no_separator. constructor. }
  destruct n as [|p|p]; unfold pretty, pretty_Z.
  - by repeat constructor.
  - apply Hpos.
  - constructor; [done | apply Hpos].
Qed.

(** Two strings without separator, each followed by a separator and a
    rest, are equal as wholes only if they are equal part by part. *)
Lemma split_at_separator a b r r' :
  no_separator a -> no_separator b ->
  a +:+ String "_" r = b +:+ String "_" r' -> a = b /\ r = r'.
Proof.
  revert b. induction a as [|c a IH]; intros [|c' b] Ha Hb; cbn.
  - by intros [= ->].
  - intros [= <- _]. by inversion Hb.
  - intros [= -> _]. by inversion Ha.
  - intros [= <- Hrest]. inversion Ha; inversion Hb; subst.
    destruct (IH b) as [-> ->]; done.
Qed.

Lemma toString_present_inj (a b : Z) r r' :
  toString (Some a) +:+ String "_" r = toString (Some b) +:+ String "_" r' ->
  a = b /\ r = r'.
Proof.
  intros Heq.
  apply split_at_separator in Heq as [Hab ->]; try apply pretty_Z_no_separator.
  split; [|reflexivity]. by apply (inj pretty).
Qed.

(** X9. Cache keys do not collide: two calls whose parameters are all
    present have the same key only if they are the same operation with
    the same parameter values, so no call is ever served the cached result
    of another. *)
Theorem cache_key_injective (op1 op2 : Operation) :
  all_present op1 -> all_present op2 ->
  key_of op1 = key_of op2 -> op1 = op2.
Proof.
  destruct op1 as [[a1 b1 c1] | a1 | a1 | [a1 b1 c1] | [a1 b1]],
           op2 as [[a2 b2 c2] | a2 | a2 | [a2 b2 c2] | [a2 b2]];
    cbn [all_present key_of
         SemesterProgramEventsParams.semesterProgramId
         SemesterProgramEventsParams.year SemesterProgramEventsParams.month
         GroupsByCourseParams.courseId GroupsByCourseParams.semesterId
         GroupsByCourseParams.programId CoursesByProgramParams.semesterId
         CoursesByProgramParams.programId];
    unfold events_key, subjects_key, published_key, groups_key, courses_key;
    intros Hp1 Hp2;
    repeat match goal with
      | H : _ /\ _ |- _ => destruct H
      | H : is_Some _ |- _ => destruct H as [? ->]
      end;
    intros Hkey;
    try (exfalso; revert Hkey; cbv [String.append]; discriminate).
  - change ("events_" +:+ ?x) with
      (String "e" (String "v" (String "e" (String "n" (String "t"
        (String "s" (String "_" x))))))) in Hkey.
    injection Hkey as Hkey.
    apply toString_present_inj in Hkey as [-> Hkey].
    apply toString_present_inj in Hkey as [-> Hkey].
    by apply (inj pretty) in Hkey as ->.
  - change ("subjects_" +:+ ?x) with
      (String "s" (String "u" (String "b" (String "j" (String "e"
        (String "c" (String "t" (String "s" (String "_" x))))))))) in Hkey.
    injection Hkey as Hkey. by apply (inj pretty) in Hkey as ->.
  - change ("published_" +:+ ?x) with
      (String "p" (String "u" (String "b" (String "l" (String "i"
        (String "s" (String "h" (String "e" (String "d"
          (String "_" x)))))))))) in Hkey.
    injection Hkey as Hkey. by apply (inj pretty) in Hkey as ->.
  - change ("groups_" +:+ ?x) with
      (String "g" (String "r" (String "o" (String "u" (String "p"
        (String "s" (String "_" x))))))) in Hkey.
    injection Hkey as Hkey.
    apply toString_present_inj in Hkey as [-> Hkey].
    apply toString_present_inj in Hkey as [-> Hkey].
    by apply (inj pretty) in Hkey as ->.
  - change ("courses_" +:+ ?x) with
      (String "c" (String "o" (String "u" (String "r" (String "s"
        (String "e" (String "s" (String "_" x)))))))) in Hkey.
    injection Hkey as Hkey.
    apply toString_present_inj in Hkey as [-> Hkey].
    by apply (inj pretty) in Hkey as ->.
Qed.

Lemma cache_key_injective_example :
  FindCoursesByProgram (CoursesByProgramParams.make (Some 25) (Some (300 + 33)))
  = FindCoursesByProgram (CoursesByProgramParams.make (Some 25) (Some 333)).
Proof.
  apply cache_key_injective.
  - split; eexists; reflexivity.
  - split; eexists; reflexivity.
  - reflexivity.
Defined.

(** ** Discovery: what a call returns and sends *)

Section DiscoveryResults.
Context {normalizer : LabelNormalizer} {zone : TimeZone}.

Lemma transformToStudyPeriod_made_from E
    (s s' : State Discovery.DiscoveryService) semester metadata period :
  run (Discovery.transformToStudyPeriod semester metadata) E s
    = (Normal period, s') ->
  made_from semester period
  /\ Discovery.academicYear period
     = parseAcademicYear (Discovery.semester_name semester)
  /\ Discovery.season period = parseSeason (Discovery.semester_name semester)
  /\ Discovery.code period = parsePeriodCode (Discovery.semester_name semester).
Proof.
  unfold Discovery.transformToStudyPeriod. rewrite run_bind.
  match goal with
  | |- context [ run ?m E s ] =>
      assert (reads_only m) as Hdates
  end.
  { destruct (Discovery.semester_isSelected semester),
      (Discovery.metadata_startDate metadata),
      (Discovery.metadata_endDate metadata);
      first [apply reads_only_ret | apply reads_only_defaultDates]. }
  destruct (Hdates E s) as (dates & s1 & -> & _ & _).
  intros [= <- _]. repeat split.
Qed.

Lemma mapM_transformToStudyPeriod E (s : State Discovery.DiscoveryService)
    semesters metadata :
  exists periods s',
    run (Discovery.mapM
           (fun semester => Discovery.transformToStudyPeriod semester metadata)
           semesters) E s = (Normal periods, s')
    /\ self s' = self s /\ sent s' = sent s
    /\ Forall2 made_from semesters periods.
Proof.
  revert s. induction semesters as [|semester semesters IH]; intros s.
  - exists [], s. repeat split. constructor.
  - cbn [Discovery.mapM]. rewrite run_bind.
    destruct (reads_only_transformToStudyPeriod semester metadata E s)
      as (period & s1 & Hrun & Hself & Hsent).
    rewrite Hrun. rewrite run_bind.
    destruct (IH s1) as (periods & s2 & -> & Hself2 & Hsent2 & Hall).
    exists (period :: periods), s2. split; [reflexivity|].
    split; [congruence|]. split; [congruence|].
    constructor; [|exact Hall].
    by apply transformToStudyPeriod_made_from in Hrun as [? _].
Qed.

(** The look-up of a discovery cache never throws, sends nothing and
    leaves the parser and the base URL in place; the look-up of one cache
    leaves the other alone. *)
Lemma getCachedPeriods_effect E (d : State Discovery.DiscoveryService) :
  exists r d1,
    run Discovery.getCachedPeriods E d = (Normal r, d1)
    /\ sent d1 = sent d
    /\ Discovery.htmlParser (self d1) = Discovery.htmlParser (self d)
    /\ Discovery.baseUrl (self d1) = Discovery.baseUrl (self d)
    /\ Discovery.programsCache (self d1) = Discovery.programsCache (self d).
Proof.
  rewrite getCachedPeriods_run.
  destruct (Discovery.periodsCache (self d)); [destruct (_ <? _)|];
    do 2 eexists; repeat split.
Qed.

Lemma getCachedPrograms_effect E (d : State Discovery.DiscoveryService) p :
  exists r d1,
    run (Discovery.getCachedPrograms p) E d = (Normal r, d1)
    /\ sent d1 = sent d
    /\ Discovery.htmlParser (self d1) = Discovery.htmlParser (self d)
    /\ Discovery.baseUrl (self d1) = Discovery.baseUrl (self d)
    /\ Discovery.periodsCache (self d1) = Discovery.periodsCache (self d).
Proof.
  rewrite getCachedPrograms_run.
  destruct (Discovery.programsCache (self d) !! p); [destruct (_ <? _)|];
    do 2 eexists; repeat split.
Qed.

(** The [try] block of [discoverPeriods], outcome by outcome. *)
Lemma fetch_periods_outcome E (s : State Discovery.DiscoveryService) :
  exists r s',
    run Discovery.fetch_periods E s = (r, s')
    /\ Discovery.programsCache (self s') = Discovery.programsCache (self s)
    /\ if url_parses E (Discovery.baseUrl (self s))
       then
         sent s' = (sent s ++ [GET None])%list
         /\ match network E (length (sent s)) (GET None) with
            | Rejects e =>
                r = Throw (if isAxiosError e
                           then DiscoveryError
                                  ("HTTP request failed: " +:+ error_message e)
                                  None
                           else e)
            | Response html =>
                match Discovery.parseHtmlSemesters
                        (Discovery.htmlParser (self s)) html with
                | Throw e => r = Throw e
                | Normal semesters =>
                    match Discovery.parseHtmlSemesterMetadata
                            (Discovery.htmlParser (self s)) html with
                    | Throw e => r = Throw e
                    | Normal metadata =>
                        exists periods now,
                          r = Normal periods
                          /\ Forall2 made_from semesters periods
                          /\ Discovery.periodsCache (self s')
                             = Some (mkEntry periods now)
                    end
                end
            end
       else sent s' = sent s /\ r = Throw (TypeError "Invalid URL").
Proof.
  unfold Discovery.fetch_periods. rewrite run_bind, fetchMainPage_run.
  destruct (url_parses E _); [|by do 2 eexists].
  destruct (network E _ _) as [html|e]; [|by do 2 eexists].
  rewrite run_bind. unfold this at 1, run at 1. cbn [self].
  rewrite run_bind. unfold Discovery.lift at 1, run at 1.
  destruct (Discovery.parseHtmlSemesters _ html) as [semesters|e];
    [|by do 2 eexists].
  rewrite run_bind. unfold Discovery.lift at 1, run at 1.
  destruct (Discovery.parseHtmlSemesterMetadata _ html) as [metadata|e];
    [|by do 2 eexists].
  rewrite run_bind.
  match goal with
  | |- context [ run (Discovery.mapM _ semesters) E ?st ] =>
      destruct (mapM_transformToStudyPeriod E st semesters metadata)
        as (periods & s2 & -> & Hself & Hsent & Hall)
  end.
  do 2 eexists. split; [reflexivity|].
  cbn [self sent reads tick] in *. rewrite Hself.
  split; [reflexivity|]. split; [exact Hsent|].
  exists periods. eexists. by repeat split.
Qed.

(** The [try] block of [discoverPrograms], outcome by outcome. *)
Lemma fetch_programs_outcome E (s : State Discovery.DiscoveryService)
    periodId :
  exists r s',
    run (Discovery.fetch_programs periodId) E s = (r, s')
    /\ if url_parses E (Discovery.baseUrl (self s))
       then
         sent s' = (sent s ++ [GET (Some periodId)])%list
         /\ match network E (length (sent s)) (GET (Some periodId)) with
            | Rejects e =>
                r = Throw (if isAxiosError e
                           then DiscoveryError
                                  ("HTTP request failed: " +:+ error_message e)
                                  None
                           else e)
            | Response html =>
                match Discovery.parseHtmlPrograms
                        (Discovery.htmlParser (self s)) html with
                | Throw e => r = Throw e
                | Normal faculties =>
                    r = Normal (Discovery.transformFacultiesToPrograms faculties)
                    /\ exists now,
                         Discovery.programsCache (self s') !! periodId
                         = Some (mkEntry
                                   (Discovery.transformFacultiesToPrograms
                                      faculties) now)
                end
            end
       else sent s' = sent s /\ r = Throw (TypeError "Invalid URL").
Proof.
  unfold Discovery.fetch_programs. rewrite run_bind, fetchMainPage_run.
  destruct (url_parses E _); [|by do 2 eexists].
  destruct (network E _ _) as [html|e]; [|by do 2 eexists].
  rewrite run_bind. unfold this at 1, run at 1. cbn [self].
  rewrite run_bind. unfold Discovery.lift at 1, run at 1.
  destruct (Discovery.parseHtmlPrograms _ html) as [faculties|e];
    [|by do 2 eexists].
  do 2 eexists. split; [reflexivity|]. cbn [self sent].
  split; [reflexivity|]. split; [reflexivity|].
  eexists. apply lookup_insert_eq.
Qed.

(** What the [catch] of [fetchMainPage] makes of a rejection. *)
Lemma rejection_kinds (e : JsError) :
  (exists message,
     e = AxiosError message
     /\ (if isAxiosError e
         then DiscoveryError ("HTTP request failed: " +:+ error_message e) None
         else e)
        = DiscoveryError ("HTTP request failed: " +:+ message) None)
  \/ (isAxiosError e = false
      /\ (if isAxiosError e
          then DiscoveryError ("HTTP request failed: " +:+ error_message e) None
          else e) = e).
Proof. destruct e; cbn; eauto. Qed.

(** X10. A [discoverPeriods] that finds no cached list builds the URL of
    the main page from the base URL. When the base URL parses, the call
    sends one GET of the main page without a period filter, whatever
    comes of it; when moreover the page arrives and the parser finds its
    semesters and metadata, the call returns one period per semester, in
    the parser's order, each with the identifier, the name and the
    selection flag of its semester, and stores that list in the periods
    slot. When the base URL does not parse, the call sends nothing and
    throws ['Failed to fetch periods'] caused by the [TypeError] of the
    URL constructor. The programs cache is not touched in any case. *)
Theorem discoverPeriods_on_miss (E : Env)
    (d : State Discovery.DiscoveryService) :
  fst (run Discovery.getCachedPeriods E d) = Normal None ->
  exists r d',
    run Discovery.discoverPeriods E d = (r, d')
    /\ Discovery.programsCache (self d') = Discovery.programsCache (self d)
    /\ if url_parses E (Discovery.baseUrl (self d))
       then
         sent d' = (sent d ++ [GET None])%list
         /\ forall html semesters metadata,
              network E (length (sent d)) (GET None) = Response html ->
              Discovery.parseHtmlSemesters (Discovery.htmlParser (self d)) html
                = Normal semesters ->
              Discovery.parseHtmlSemesterMetadata
                (Discovery.htmlParser (self d)) html = Normal metadata ->
              exists periods now,
                r = Normal periods
                /\ Forall2 made_from semesters periods
                /\ Discovery.periodsCache (self d')
                   = Some (mkEntry periods now)
       else
         sent d' = sent d
         /\ r = Throw (DiscoveryError "Failed to fetch periods"
                         (Some (TypeError "Invalid URL"))).
Proof.
  intros Hmiss.
  destruct (getCachedPeriods_effect E d)
    as (r0 & d1 & Hlook & Hsent & Hparser & Hbase & Hprograms).
  rewrite Hlook in Hmiss. injection Hmiss as ->.
  unfold Discovery.discoverPeriods. rewrite run_bind, Hlook, try_wrap_run.
  destruct (fetch_periods_outcome E d1) as (r & d' & -> & Hframe & Hout).
  rewrite Hbase, Hsent, Hparser in Hout. rewrite Hprograms in Hframe.
  destruct r as [periods|e]; do 2 eexists;
    (split; [reflexivity|]); (split; [exact Hframe|]);
    destruct (url_parses E _).
  - split; [apply Hout|]. intros html semesters metadata Hnet Hs Hm.
    rewrite Hnet, Hs, Hm in Hout. apply Hout.
  - by destruct Hout.
  - split; [apply Hout|]. intros html semesters metadata Hnet Hs Hm.
    rewrite Hnet, Hs, Hm in Hout.
    by destruct Hout as (_ & periods & now & ? & _).
  - destruct Hout as [-> [= ->]]. by split.
Qed.

(** X11. A [discoverPrograms(p)] that finds no cached list for [p] builds
    the URL of the main page from the base URL. When the base URL parses,
    the call sends one GET of the main page filtered to [p], whatever
    comes of it; when moreover the page arrives and the parser finds its
    faculties, the call returns the programs of all faculties as one flat
    list and stores it in the slot of [p]. When the base URL does not
    parse, the call sends nothing and throws ['Failed to fetch programs']
    caused by the [TypeError] of the URL constructor. *)
Theorem discoverPrograms_on_miss (E : Env)
    (d : State Discovery.DiscoveryService) (periodId : Z) :
  fst (run (Discovery.getCachedPrograms periodId) E d) = Normal None ->
  exists r d',
    run (Discovery.discoverPrograms periodId) E d = (r, d')
    /\ if url_parses E (Discovery.baseUrl (self d))
       then
         sent d' = (sent d ++ [GET (Some periodId)])%list
         /\ forall html faculties,
              network E (length (sent d)) (GET (Some periodId))
                = Response html ->
              Discovery.parseHtmlPrograms (Discovery.htmlParser (self d)) html
                = Normal faculties ->
              r = Normal (Discovery.transformFacultiesToPrograms faculties)
              /\ exists now,
                   Discovery.programsCache (self d') !! periodId
                   = Some (mkEntry
                             (Discovery.transformFacultiesToPrograms faculties)
                             now)
       else
         sent d' = sent d
         /\ r = Throw (DiscoveryError "Failed to fetch programs"
                         (Some (TypeError "Invalid URL"))).
Proof.
  intros Hmiss.
  destruct (getCachedPrograms_effect E d periodId)
    as (r0 & d1 & Hlook & Hsent & Hparser & Hbase & _).
  rewrite Hlook in Hmiss. injection Hmiss as ->.
  unfold Discovery.discoverPrograms. rewrite run_bind, Hlook, try_wrap_run.
  destruct (fetch_programs_outcome E d1 periodId) as (r & d' & -> & Hout).
  rewrite Hbase, Hsent, Hparser in Hout.
  destruct r as [programs|e]; do 2 eexists;
    (split; [reflexivity|]); destruct (url_parses E _).
  - split; [apply Hout|]. intros html faculties Hnet Hf.
    rewrite Hnet, Hf in Hout. apply Hout.
  - by destruct Hout.
  - split; [apply Hout|]. intros html faculties Hnet Hf.
    rewrite Hnet, Hf in Hout. by destruct Hout as (_ & ? & _).
  - destruct Hout as [-> [= ->]]. by split.
Qed.

End DiscoveryResults.

Lemma discoverPeriods_on_miss_example :
  (exists periods d',
     run (Discovery.discoverPeriods
            (normalizer := constant_normalizer "2024/2025" "autumn")
            (zone := utc))
         (env_with 1000 (Response (JStr "<html>"))) (new_service 3600000)
       = (Normal periods, d')
     /\ Forall2 made_from [Discovery.mkSemester 25 "2024/2025 Rudens" true]
                          periods
     /\ sent d' = [GET None])
  /\ (exists d',
        run (Discovery.discoverPeriods
               (normalizer := constant_normalizer "2024/2025" "autumn")
               (zone := utc))
            (env_with 1000 (Response (JStr "<html>")))
            (service_at "nodarbibas" 3600000)
          = (Throw (DiscoveryError "Failed to fetch periods"
                      (Some (TypeError "Invalid URL"))), d')
        /\ sent d' = []).
Proof.
  split.
  - destruct (@discoverPeriods_on_miss
                (constant_normalizer "2024/2025" "autumn") utc
                (env_with 1000 (Response (JStr "<html>")))
                (new_service 3600000) eq_refl)
      as (r & d' & Hrun & _ & Hsent & Hpage).
    destruct (Hpage (JStr "<html>")
                [Discovery.mkSemester 25 "2024/2025 Rudens" true]
                (Discovery.mkMetadata None None) eq_refl eq_refl eq_refl)
      as (periods & now & -> & Hall & _).
    exists periods, d'. repeat split; assumption.
  - destruct (@discoverPeriods_on_miss
                (constant_normalizer "2024/2025" "autumn") utc
                (env_with 1000 (Response (JStr "<html>")))
                (service_at "nodarbibas" 3600000) eq_refl)
      as (r & d' & Hrun & _ & Hsent & ->).
    exists d'. split; assumption.
Defined.

Lemma discoverPrograms_on_miss_example :
  (exists d',
     run (Discovery.discoverPrograms
            (normalizer := constant_normalizer "2024/2025" "autumn") 25)
         (env_with 3600001 (Response (JStr "<html>"))) (service_with 3600000)
       = (Normal [Discovery.mkStudyProgram 1 "Datorsistemas (RDBD0)" "RDBD0"
                    "Datorsistemas (RDBD0)" ("DITF", "33000") ["a"]], d')
     /\ sent d' = [GET (Some 25)])
  /\ (exists d',
        run (Discovery.discoverPrograms
               (normalizer := constant_normalizer "2024/2025" "autumn") 25)
            (env_with 1000 (Response (JStr "<html>")))
            (service_at "nodarbibas" 3600000)
          = (Throw (DiscoveryError "Failed to fetch programs"
                      (Some (TypeError "Invalid URL"))), d')
        /\ sent d' = []).
Proof.
  split.
  - destruct (@discoverPrograms_on_miss
                (constant_normalizer "2024/2025" "autumn")
                (env_with 3600001 (Response (JStr "<html>")))
                (service_with 3600000) 25 eq_refl)
      as (r & d' & Hrun & Hsent & Hpage).
    destruct (Hpage (JStr "<html>")
                [Discovery.mkFaculty "DITF" "33000"
                   [Discovery.mkProgram 1 "Datorsistemas (RDBD0)" "RDBD0"
                      ["a"]]] eq_refl eq_refl) as (-> & _).
    exists d'. split; assumption.
  - destruct (@discoverPrograms_on_miss
                (constant_normalizer "2024/2025" "autumn")
                (env_with 1000 (Response (JStr "<html>")))
                (service_at "nodarbibas" 3600000) 25 eq_refl)
      as (r & d' & Hrun & Hsent & ->).
    exists d'. split; assumption.
Defined.



(** ** Discovery: errors *)

(** X13. Every error of [discoverPeriods] is a [DiscoveryError] with the
    message ['Failed to fetch periods'], and every error of
    [discoverPrograms] one with ['Failed to fetch programs']; its cause is
    the underlying error when that is an [Error] object. Either the base
    URL does not parse: the underlying error is the [TypeError] of the URL
    constructor and nothing has been sent. Or it parses, exactly the one
    GET has been sent, and the underlying error is the discovery error
    ['HTTP request failed: <message>'] for a rejection by axios, the
    transport's own error otherwise, or what the parser threw. *)
Theorem discovery_errors_are_wrapped {normalizer : LabelNormalizer}
    {zone : TimeZone}
    (E : Env) (d d' : State Discovery.DiscoveryService) (e : JsError) :
  (run Discovery.discoverPeriods E d = (Throw e, d') ->
   exists underlying,
     e = DiscoveryError "Failed to fetch periods"
           (if instanceof_Error underlying then Some underlying else None)
     /\ ((url_parses E (Discovery.baseUrl (self d)) = false
          /\ underlying = TypeError "Invalid URL"
          /\ sent d' = sent d)
         \/ (url_parses E (Discovery.baseUrl (self d)) = true
             /\ sent d' = (sent d ++ [GET None])%list
             /\ ((exists message,
                    network E (length (sent d)) (GET None)
                      = Rejects (AxiosError message)
                    /\ underlying
                       = DiscoveryError ("HTTP request failed: " +:+ message)
                                        None)
                 \/ (network E (length (sent d)) (GET None)
                       = Rejects underlying
                     /\ isAxiosError underlying = false)
                 \/ (exists html,
                       network E (length (sent d)) (GET None) = Response html
                       /\ (Discovery.parseHtmlSemesters
                             (Discovery.htmlParser (self d)) html
                             = Throw underlying
                           \/ Discovery.parseHtmlSemesterMetadata
                                (Discovery.htmlParser (self d)) html
                              = Throw underlying))))))
  /\ (forall periodId,
        run (Discovery.discoverPrograms periodId) E d = (Throw e, d') ->
        exists underlying,
          e = DiscoveryError "Failed to fetch programs"
                (if instanceof_Error underlying then Some underlying else None)
          /\ ((url_parses E (Discovery.baseUrl (self d)) = false
               /\ underlying = TypeError "Invalid URL"
               /\ sent d' = sent d)
              \/ (url_parses E (Discovery.baseUrl (self d)) = true
                  /\ sent d' = (sent d ++ [GET (Some periodId)])%list
                  /\ ((exists message,
                         network E (length (sent d)) (GET (Some periodId))
                           = Rejects (AxiosError message)
                         /\ underlying
                            = DiscoveryError
                                ("HTTP request failed: " +:+ message) None)
                      \/ (network E (length (sent d)) (GET (Some periodId))
                            = Rejects underlying
                          /\ isAxiosError underlying = false)
                      \/ (exists html,
                            network E (length (sent d)) (GET (Some periodId))
                              = Response html
                            /\ Discovery.parseHtmlPrograms
                                 (Discovery.htmlParser (self d)) html
                               = Throw underlying))))).
Proof.
  split.
  - unfold Discovery.discoverPeriods. rewrite run_bind.
    destruct (getCachedPeriods_effect E d)
      as (r & d1 & -> & Hsent & Hparser & Hbase & _).
    destruct r as [periods|]; [discriminate|].
    rewrite try_wrap_run.
    destruct (fetch_periods_outcome E d1) as (r & d2 & -> & _ & Hout).
    rewrite Hbase, Hsent, Hparser in Hout.
    destruct r as [periods|e0]; [discriminate|].
    intros [= <- <-]. exists e0. split; [reflexivity|].
    destruct (url_parses E _).
    2:{ left. destruct Hout as [-> [= ->]]. by repeat split. }
    right. destruct Hout as [-> Hout]. split; [reflexivity|].
    split; [reflexivity|].
    destruct (network E _ _) as [html|e1].
    + do 2 right. exists html. split; [reflexivity|].
      destruct (Discovery.parseHtmlSemesters _ html) as [semesters|e1].
      * destruct (Discovery.parseHtmlSemesterMetadata _ html)
          as [metadata|e1].
        -- by destruct Hout as (? & ? & ? & _).
        -- injection Hout as ->. by right.
      * injection Hout as ->. by left.
    + injection Hout as ->.
      destruct (rejection_kinds e1) as [(message & -> & ->)|[Hkind ->]].
      * left. by exists message.
      * right. by left.
  - intros periodId. unfold Discovery.discoverPrograms. rewrite run_bind.
    destruct (getCachedPrograms_effect E d periodId)
      as (r & d1 & -> & Hsent & Hparser & Hbase & _).
    destruct r as [programs|]; [discriminate|].
    rewrite try_wrap_run.
    destruct (fetch_programs_outcome E d1 periodId) as (r & d2 & -> & Hout).
    rewrite Hbase, Hsent, Hparser in Hout.
    destruct r as [programs|e0]; [discriminate|].
    intros [= <- <-]. exists e0. split; [reflexivity|].
    destruct (url_parses E _).
    2:{ left. destruct Hout as [-> [= ->]]. by repeat split. }
    right. destruct Hout as [-> Hout]. split; [reflexivity|].
    split; [reflexivity|].
    destruct (network E _ _) as [html|e1].
    + do 2 right. exists html. split; [reflexivity|].
      destruct (Discovery.parseHtmlPrograms _ html) as [faculties|e1].
      * by destruct Hout.
      * by injection Hout as ->.
    + injection Hout as ->.
      destruct (rejection_kinds e1) as [(message & -> & ->)|[Hkind ->]].
      * left. by exists message.
      * right. by left.
Qed.

Lemma discovery_errors_are_wrapped_example :
  (exists underlying,
     DiscoveryError "Failed to fetch periods"
       (Some (DiscoveryError "HTTP request failed: Network Error" None))
     = DiscoveryError "Failed to fetch periods"
         (if instanceof_Error underlying then Some underlying else None))
  /\ (exists underlying,
        DiscoveryError "Failed to fetch programs"
          (Some (TypeError "Invalid URL"))
        = DiscoveryError "Failed to fetch programs"
            (if instanceof_Error underlying then Some underlying else None)).
Proof.
  split.
  - destruct (proj1 (@discovery_errors_are_wrapped
                       (constant_normalizer "2024/2025" "autumn") utc
                       (env_with 1000 (Rejects (AxiosError "Network Error")))
                       (new_service 3600000)
                       (snd (run (Discovery.discoverPeriods
                                    (normalizer :=
                                       constant_normalizer "2024/2025" "autumn")
                                    (zone := utc))
                               (env_with 1000
                                  (Rejects (AxiosError "Network Error")))
                               (new_service 3600000)))
                       (DiscoveryError "Failed to fetch periods"
                          (Some (DiscoveryError
                                   "HTTP request failed: Network Error" None))))
                eq_refl) as (underlying & He & _).
    exists underlying. exact He.
  - destruct (proj2 (@discovery_errors_are_wrapped
                       (constant_normalizer "2024/2025" "autumn") utc
                       (env_with 1000 (Response (JStr "<html>")))
                       (service_at "nodarbibas" 3600000)
                       (service_at "nodarbibas" 3600000)
                       (DiscoveryError "Failed to fetch programs"
                          (Some (TypeError "Invalid URL"))))
                25 eq_refl) as (underlying & He & _).
    exists underlying. exact He.
Defined.

(** ** Discovery: clearing, the current period, the programs of a page *)

(** X14. After [clearCache] of the discovery service both caches are
    empty: a look-up of the periods or of any period's programs misses
    without reading the clock, and the next [discoverPeriods] and
    [discoverPrograms] each go for the main page again: each sends its
    GET when the base URL parses, and nothing when it does not. The
    parser, the base URL and the time-to-live stay. *)
Theorem discovery_clearCache_forces_refetch {normalizer : LabelNormalizer}
    {zone : TimeZone}
    (E E' : Env) (d : State Discovery.DiscoveryService) (periodId : Z) :
  let cleared := snd (run Discovery.clearCache E d) in
  Discovery.htmlParser (self cleared) = Discovery.htmlParser (self d)
  /\ Discovery.baseUrl (self cleared) = Discovery.baseUrl (self d)
  /\ Discovery.cacheTimeout (self cleared) = Discovery.cacheTimeout (self d)
  /\ run Discovery.getCachedPeriods E' cleared = (Normal None, cleared)
  /\ run (Discovery.getCachedPrograms periodId) E' cleared
     = (Normal None, cleared)
  /\ sent (snd (run Discovery.discoverPeriods E' cleared))
     = (if url_parses E' (Discovery.baseUrl (self d))
        then sent d ++ [GET None] else sent d)%list
  /\ sent (snd (run (Discovery.discoverPrograms periodId) E' cleared))
     = (if url_parses E' (Discovery.baseUrl (self d))
        then sent d ++ [GET (Some periodId)] else sent d)%list.
Proof.
  cbv zeta.
  assert (run Discovery.getCachedPeriods E' (snd (run Discovery.clearCache E d))
          = (Normal None, snd (run Discovery.clearCache E d))) as Hperiods
    by reflexivity.
  assert (run (Discovery.getCachedPrograms periodId) E'
              (snd (run Discovery.clearCache E d))
          = (Normal None, snd (run Discovery.clearCache E d))) as Hprograms.
  { rewrite getCachedPrograms_run.
    change (Discovery.programsCache (self (snd (run Discovery.clearCache E d))))
      with (∅ : gmap Z (CacheEntry (list Discovery.StudyProgram))).
    by rewrite lookup_empty. }
  split; [reflexivity|]. split; [reflexivity|]. split; [reflexivity|].
  split; [exact Hperiods|]. split; [exact Hprograms|]. split.
  - unfold Discovery.discoverPeriods. rewrite run_bind, Hperiods, try_wrap_run.
    destruct (fetch_periods_outcome E' (snd (run Discovery.clearCache E d)))
      as (r & d2 & -> & _ & Hout).
    change (Discovery.baseUrl (self (snd (run Discovery.clearCache E d))))
      with (Discovery.baseUrl (self d)) in Hout.
    change (sent (snd (run Discovery.clearCache E d))) with (sent d) in Hout.
    destruct (url_parses E' _), r; cbn [snd]; apply Hout.
  - unfold Discovery.discoverPrograms.
    rewrite run_bind, Hprograms, try_wrap_run.
    destruct (fetch_programs_outcome E' (snd (run Discovery.clearCache E d))
                periodId) as (r & d2 & -> & Hout).
    change (Discovery.baseUrl (self (snd (run Discovery.clearCache E d))))
      with (Discovery.baseUrl (self d)) in Hout.
    change (sent (snd (run Discovery.clearCache E d))) with (sent d) in Hout.
    destruct (url_parses E' _), r; cbn [snd]; apply Hout.
Qed.

(** X15. [discoverCurrentPeriod] sends nothing of its own and picks from
    the list that [discoverPeriods] returns: none when the list is empty,
    without an error; otherwise the first period flagged as selected; and
    when no period is flagged, the first period of the list. *)
Theorem discoverCurrentPeriod_choice {normalizer : LabelNormalizer}
    {zone : TimeZone}
    (E : Env) (d d' : State Discovery.DiscoveryService)
    (periods : list Discovery.StudyPeriod) :
  run Discovery.discoverPeriods E d = (Normal periods, d') ->
  exists current,
    run Discovery.discoverCurrentPeriod E d = (Normal current, d')
    /\ (periods = [] <-> current = None)
    /\ (forall p, current = Some p ->
          exists before after,
            periods = (before ++ p :: after)%list
            /\ Forall (fun q => Discovery.isSelected q = false) before
            /\ (Discovery.isSelected p = false ->
                before = []
                /\ Forall (fun q => Discovery.isSelected q = false) after)).
Proof.
  intros Hrun. unfold Discovery.discoverCurrentPeriod.
  rewrite run_bind, Hrun. eexists. split; [reflexivity|]. clear Hrun.
  assert (forall l : list Discovery.StudyPeriod,
            match List.find Discovery.isSelected l with
            | Some p =>
                Discovery.isSelected p = true
                /\ exists before after,
                     l = (before ++ p :: after)%list
                     /\ Forall (fun q => Discovery.isSelected q = false) before
            | None => Forall (fun q => Discovery.isSelected q = false) l
            end) as Hfind.
  { induction l as [|q l IH]; cbn [List.find]; [constructor|].
    destruct (Discovery.isSelected q) eqn:Hq.
    - split; [exact Hq|]. exists [], l. split; [reflexivity | constructor].
    - destruct (List.find Discovery.isSelected l) as [p|].
      + destruct IH as (Hp & before & after & -> & Hbefore).
        split; [exact Hp|]. exists (q :: before), after.
        split; [reflexivity | by constructor].
      + by constructor. }
  specialize (Hfind periods).
  destruct (List.find Discovery.isSelected periods) as [p|].
  - destruct Hfind as (Hp & before & after & -> & Hbefore). split.
    + split; [by destruct before | discriminate].
    + intros ? [= <-]. exists before, after. split; [reflexivity|].
      split; [exact Hbefore|]. congruence.
  - destruct periods as [|p periods]; cbn [head].
    + split; [done | discriminate].
    + split; [split; discriminate|]. intros ? [= <-].
      exists [], periods. split; [reflexivity|]. split; [constructor|].
      intros _. split; [reflexivity | by inversion Hfind].
Qed.

Lemma discoverCurrentPeriod_choice_example :
  exists current,
    run (Discovery.discoverCurrentPeriod
           (normalizer := constant_normalizer "2024/2025" "autumn") (zone := utc))
        (env_with 1000 (Response (JStr "<html>"))) (new_service 3600000)
      = (Normal current,
         snd (run (Discovery.discoverPeriods
                     (normalizer := constant_normalizer "2024/2025" "autumn") (zone := utc))
                (env_with 1000 (Response (JStr "<html>")))
                (new_service 3600000)))
    /\ ([Discovery.mkStudyPeriod 25 "2024/2025 Rudens" "" "2024/2025"
           "autumn" (calendar_date (zone := utc) 2024 9 1)
                    (calendar_date (zone := utc) 2025 1 31) true]
        = [] <-> current = None).
Proof.
  destruct (@discoverCurrentPeriod_choice
              (constant_normalizer "2024/2025" "autumn") utc
              (env_with 1000 (Response (JStr "<html>"))) (new_service 3600000)
              (snd (run (Discovery.discoverPeriods
                           (normalizer := constant_normalizer "2024/2025" "autumn") (zone := utc))
                      (env_with 1000 (Response (JStr "<html>")))
                      (new_service 3600000)))
              [Discovery.mkStudyPeriod 25 "2024/2025 Rudens" "" "2024/2025"
                 "autumn" (calendar_date (zone := utc) 2024 9 1)
                          (calendar_date (zone := utc) 2025 1 31)
                 true]
              eq_refl) as (current & Hrun & Hempty & _).
  exists current. split; assumption.
Defined.

(** X16. [transformFacultiesToPrograms] flattens the faculties in order:
    the programs of the result are, one for one and in the same order, the
    raw programs of the first faculty, then of the second, and so on, each
    with its identifier, code and tokens unchanged, its raw name as full
    name, the normalized name as name, and the name and code of the
    faculty it was listed under. *)
Theorem transformFacultiesToPrograms_flattens {normalizer : LabelNormalizer}
    (faculties : list Discovery.Faculty) :
  Forall2
    (fun (owned : Discovery.Faculty * Discovery.Program)
         (program : Discovery.StudyProgram) =>
       Discovery.sp_id program = Discovery.program_id (snd owned)
       /\ Discovery.sp_code program = Discovery.program_code (snd owned)
       /\ Discovery.sp_tokens program = Discovery.program_tokens (snd owned)
       /\ Discovery.sp_fullName program = Discovery.program_name (snd owned)
       /\ Discovery.sp_name program
          = parseProgramName (Discovery.program_name (snd owned))
       /\ Discovery.sp_faculty program
          = (Discovery.facultyName (fst owned),
             Discovery.facultyCode (fst owned)))
    (flat_map (fun faculty => map (pair faculty) (Discovery.programs faculty))
              faculties)
    (Discovery.transformFacultiesToPrograms faculties)
  /\ length (Discovery.transformFacultiesToPrograms faculties)
     = list_sum (map (fun faculty => length (Discovery.programs faculty))
                     faculties).
Proof.
  unfold Discovery.transformFacultiesToPrograms. split.
  - induction faculties as [|faculty faculties IH]; cbn [flat_map];
      [constructor|].
    apply Forall2_app; [|exact IH].
    induction (Discovery.programs faculty) as [|program programs IHp];
      cbn [map]; constructor; [repeat split | exact IHp].
  - induction faculties as [|faculty faculties IH]; cbn [flat_map map list_sum];
      [reflexivity|].
    rewrite length_app, length_map, IH. reflexivity.
Qed.

(** ** Default ranges that need no clock *)

(** X17. For a semester whose label gives an academic year of the form
    [YYYY/YYYY] and one of the seasons autumn, spring and summer, the
    period does not depend on the clock or on the state of the service:
    [transformToStudyPeriod] reads no clock, changes nothing, and returns
    the same period whenever it is called. *)
Theorem recognised_season_needs_no_clock {normalizer : LabelNormalizer}
    {zone : TimeZone}
    (semester : Discovery.Semester) (metadata : Discovery.SemesterMetadata) :
  is_Some (Discovery.yearMatch
             (parseAcademicYear (Discovery.semester_name semester))) ->
  recognised (parseSeason (Discovery.semester_name semester)) ->
  exists period,
    forall E (s : State Discovery.DiscoveryService),
      run (Discovery.transformToStudyPeriod semester metadata) E s
        = (Normal period, s).
Proof.
  intros [[y1 y2] Hmatch] Hseason.
  destruct (Discovery.semester_isSelected semester) eqn:Hsel;
    [destruct (Discovery.metadata_startDate metadata) as [a|] eqn:Hstart;
     [destruct (Discovery.metadata_endDate metadata) as [b|] eqn:Hend|]|].
  1:{ eexists. intros E s. by apply transformToStudyPeriod_selected. }
  all: destruct Hseason as [Hs | [Hs | Hs]];
    eexists; intros E s;
    (rewrite transformToStudyPeriod_default
       by (unfold lacks_authoritative_dates; tauto));
    rewrite defaultDates_run; unfold academic_years; rewrite Hmatch, Hs;
    reflexivity.
Qed.

Lemma recognised_season_needs_no_clock_example :
  exists period,
    forall E (s : State Discovery.DiscoveryService),
      run (Discovery.transformToStudyPeriod
             (normalizer := constant_normalizer "2024/2025" "summer") (zone := utc)
             (Discovery.mkSemester 27 "2024/2025 Vasara" false)
             (Discovery.mkMetadata None None)) E s
      = (Normal period, s).
Proof.
  apply (@recognised_season_needs_no_clock
           (constant_normalizer "2024/2025" "summer") utc).
  - eexists. reflexivity.
  - right. right. reflexivity.
Defined.

Lemma digit_value_range c :
  Discovery.is_digit c = true -> 0 <= Z.of_nat (nat_of_ascii c) - 48 <= 9.
Proof.
  unfold Discovery.is_digit. rewrite andb_true_iff, !Nat.leb_le. lia.
Qed.

Lemma parseInt_four_digits y :
  String.length y = 4%nat ->
  forallb Discovery.is_digit (list_ascii_of_string y) = true ->
  0 <= Discovery.parseInt y <= 9999.
Proof.
  intros Hlen Hdigits.
  do 4 (destruct y as [|? y]; [discriminate|]).
  destruct y; [|discriminate].
  cbn [list_ascii_of_string forallb] in Hdigits.
  rewrite !andb_true_iff in Hdigits.
  destruct Hdigits as (Ha & Hb & Hc & Hd & _).
  apply digit_value_range in Ha, Hb, Hc, Hd.
  unfold Discovery.parseInt. cbn [list_ascii_of_string fold_left]. lia.
Qed.

Lemma yearMatch_groups s y1 y2 :
  Discovery.yearMatch s = Some (y1, y2) ->
  String.length y1 = 4%nat /\ String.length y2 = 4%nat
  /\ forallb Discovery.is_digit (list_ascii_of_string y1) = true
  /\ forallb Discovery.is_digit (list_ascii_of_string y2) = true.
Proof.
  unfold Discovery.yearMatch.
  do 9 (destruct s as [|? s]; [discriminate|]).
  destruct s; [|discriminate].
  destruct (_ && _) eqn:Hall; [|discriminate].
  intros [= <- <-].
  rewrite !andb_true_iff in Hall.
  destruct Hall as ((((((((Ha & Hb) & Hc) & Hd) & _) & He) & Hf) & Hg) & Hh).
  cbn [list_ascii_of_string forallb String.length].
  rewrite Ha, Hb, Hc, Hd, He, Hf, Hg, Hh. repeat split.
Qed.

Lemma new_Date_ymd_year_range {zone : TimeZone} y m d :
  0 <= y <= 9999 -> 100 <= fullYear (new_Date_ymd y m d) <= 9999.
Proof.
  intros Hy. unfold new_Date_ymd. cbn [fullYear].
  destruct (Z.leb_spec 0 y), (Z.leb_spec y 99); cbn [andb]; lia.
Qed.

(** X18. The default range of a recognised season in an academic year of
    the form [YYYY/YYYY] lies in the years 100 to 9999: the two years read
    from the string are between 0 and 9999, and the date constructor moves
    a year below 100 into 1900 to 1999. *)
Theorem default_range_years {normalizer : LabelNormalizer} {zone : TimeZone}
    (E : Env) (s s' : State Discovery.DiscoveryService)
    (semester : Discovery.Semester) (metadata : Discovery.SemesterMetadata)
    (period : Discovery.StudyPeriod) :
  lacks_authoritative_dates semester metadata ->
  is_Some (Discovery.yearMatch
             (parseAcademicYear (Discovery.semester_name semester))) ->
  recognised (parseSeason (Discovery.semester_name semester)) ->
  run (Discovery.transformToStudyPeriod semester metadata) E s
    = (Normal period, s') ->
  100 <= fullYear (Discovery.startDate period) <= 9999
  /\ 100 <= fullYear (Discovery.endDate period) <= 9999.
Proof.
  intros Hlacks [[y1 y2] Hmatch] Hseason.
  rewrite (transformToStudyPeriod_default E s semester metadata Hlacks).
  rewrite defaultDates_run. unfold academic_years. rewrite Hmatch.
  cbv zeta. cbn [fst snd].
  apply yearMatch_groups in Hmatch as (Hl1 & Hl2 & Hd1 & Hd2).
  pose proof (parseInt_four_digits y1 Hl1 Hd1) as Hy1.
  pose proof (parseInt_four_digits y2 Hl2 Hd2) as Hy2.
  destruct Hseason as [-> | [-> | ->]]; cbn [String.eqb Ascii.eqb Bool.eqb];
    intros [= <- _]; cbn [Discovery.startDate Discovery.endDate fst snd];
    split; by apply new_Date_ymd_year_range.
Qed.

Lemma default_range_years_example :
  let r := run (Discovery.transformToStudyPeriod
                  (normalizer := constant_normalizer "0050/0051" "autumn") (zone := utc)
                  (Discovery.mkSemester 1 "0050/0051 Rudens" false)
                  (Discovery.mkMetadata None None))
               (env_with 1000 (Response JNull)) (new_service 3600000) in
  exists period,
    fst r = Normal period
    /\ 100 <= fullYear (Discovery.startDate period) <= 9999
    /\ 100 <= fullYear (Discovery.endDate period) <= 9999.
Proof.
  cbv zeta. eexists. split; [reflexivity|].
  apply (@default_range_years (constant_normalizer "0050/0051" "autumn") utc
           (env_with 1000 (Response JNull)) (new_service 3600000)
           (new_service 3600000)
           (Discovery.mkSemester 1 "0050/0051 Rudens" false)
           (Discovery.mkMetadata None None)).
  - by left.
  - eexists. reflexivity.
  - left. reflexivity.
  - reflexivity.
Defined.
